(** * Speaker-notes summarizer: the summarization orchestration layer

    A shallow embedding of [summarizers.py], [extractors.py] and the
    orchestration part of [main.py], with the properties of the retry
    policy, of the per-unit eligibility rules and of the bullet clean-up.

    Python [str] values are modelled as [string]: a sequence of characters
    whose code points are below 256, each [ascii] standing for the code
    point of the same number.  Python [int] values are modelled as [Z].

    The vendor SDKs are parameters: functions on an abstract state of the
    world, so that a call can answer differently each time.  Coroutines
    are run one after the other, as [main] awaits each of them before it
    goes on.  Calls of [logging] and the [tqdm] progress bars write to the
    console only; the throttler and the waits of the [backoff] decorator
    take time only.  They are left out. *)

From Stdlib Require Import ZArith List Bool Lia Ascii String Sorted.
From Stdlib Require Import Numbers.DecimalString.
From Stdlib Require QArith.QArith_base.
Import ListNotations.
Local Open Scope string_scope.
Local Open Scope Z_scope.

(** ** Python string primitives used by the program *)

Module Py.

(** [str.isspace] on one character, for code points below 256:
    TAB, LF, VT, FF, CR, FS, GS, RS, US, SPACE, NEL and NBSP. *)
Definition isspace (c : ascii) : bool :=
  let n := nat_of_ascii c in
  ((9 <=? n) && (n <=? 13) || (28 <=? n) && (n <=? 32)
   || (n =? 133) || (n =? 160))%nat.

(** [s.lstrip()] *)
Fixpoint lstrip (s : string) : string :=
  match s with
  | String c s' => if isspace c then lstrip s' else s
  | EmptyString => EmptyString
  end.

(** [s.rstrip()] *)
Fixpoint rstrip (s : string) : string :=
  match s with
  | String c s' =>
      match rstrip s' with
      | EmptyString => if isspace c then EmptyString else String c EmptyString
      | r => String c r
      end
  | EmptyString => EmptyString
  end.

(** [s.strip()] *)
Definition strip (s : string) : string := lstrip (rstrip s).

(** [s.startswith(p)] *)
Definition startswith (s p : string) : bool := String.prefix p s.

(** [s[1:]] *)
Definition tail (s : string) : string :=
  match s with
  | String _ s' => s'
  | EmptyString => EmptyString
  end.

(** [s.split(sep)] for a separator of one character: the result is never
    empty, and an empty [s] gives one empty piece. *)
Fixpoint split (sep : ascii) (s : string) : list string :=
  match s with
  | EmptyString => [EmptyString]
  | String c s' =>
      if Ascii.eqb c sep then EmptyString :: split sep s'
      else match split sep s' with
           | piece :: pieces => String c piece :: pieces
           | [] => [String c EmptyString]
           end
  end.

(** [sep.join(pieces)] *)
Fixpoint join (sep : string) (pieces : list string) : string :=
  match pieces with
  | [] => EmptyString
  | [piece] => piece
  | piece :: rest => piece ++ sep ++ join sep rest
  end.

(** [s.replace(old, new)] for a non-empty [old]: occurrences are replaced
    from the left and do not overlap.  [skip] counts the characters of an
    occurrence just replaced that are still to be passed over. *)
Fixpoint replace_from (skip : nat) (old new s : string) : string :=
  match s with
  | EmptyString => EmptyString
  | String c s' =>
      match skip with
      | S k => replace_from k old new s'
      | O =>
          if String.prefix old s
          then new ++ replace_from (Nat.pred (String.length old)) old new s'
          else String c (replace_from O old new s')
      end
  end.

Definition replace (old new s : string) : string := replace_from O old new s.

(** [bool(s)]: a string is true when it is not empty. *)
Definition truthy (s : string) : bool :=
  match s with
  | EmptyString => false
  | String _ _ => true
  end.

(** [len(s)] *)
Definition len (s : string) : Z := Z.of_nat (String.length s).

(** [str(n)] for an [int]. *)
Definition str_of_int (n : Z) : string := NilEmpty.string_of_int (Z.to_int n).

End Py.

Definition LF : ascii := "010"%char.

(** ** summarizers.py *)

(** The [while] loop of [clean_summary]:
    [while line.startswith('-') or line.startswith(' '): line = line[1:].lstrip()].
    Every turn removes a character, so the length of the line bounds the
    number of turns. *)
Fixpoint strip_bullets (fuel : nat) (line : string) : string :=
  match fuel with
  | O => line
  | S fuel' =>
      if Py.startswith line "-" || Py.startswith line " "
      then strip_bullets fuel' (Py.lstrip (Py.tail line))
      else line
  end.

(** The body of the [for] loop of [clean_summary] on one line: [None] when
    the line adds nothing to [cleaned_lines]. *)
Definition clean_line (line : string) : option string :=
  let stripped_line := Py.strip line in
  if Py.truthy stripped_line
  then Some ("- " ++ strip_bullets (String.length stripped_line) stripped_line)
  else None.

Fixpoint cleaned_lines (lines : list string) : list string :=
  match lines with
  | [] => []
  | line :: rest =>
      match clean_line line with
      | Some l => l :: cleaned_lines rest
      | None => cleaned_lines rest
      end
  end.

Definition clean_summary (summary : string) : string :=
  let lines := Py.split LF summary in
  let cleaned_summary := Py.join (String LF "") (cleaned_lines lines) in
  Py.replace "- -" "-" cleaned_summary.

(** What the [try] block of an adapter gets from the vendor SDK: the text
    it reads out of the response, or an exception [e] raised on the way,
    of which only [str(e)] is used. *)
Inductive reply : Type :=
| Returned (text : string)
| Raised (message : string).

(** The result of [analyze(...).get_result()]: the text under
    ['summarization']['text'] when both keys are there. *)
Inductive watson_reply : Type :=
| WatsonResult (summarization_text : option string)
| WatsonRaised (message : string).

(** The exceptions of the program: [SummarizationError], and any other
    subclass of [Exception]. *)
Inductive exception : Type :=
| SummarizationError (message : string)
| Exception (message : string).

(** How a call ends: with a value or with an exception. *)
Inductive outcome (A : Type) : Type :=
| Return (value : A)
| Raise (e : exception).
Arguments Return {A} value.
Arguments Raise {A} e.

(** config.py, [Config]. *)
Record Config : Type := {
  watson_api_key : string;
  watson_service_url : string;
  openai_api_key : string;
  openai_model : string;
  openai_max_tokens : Z;
  openai_temperature : QArith_base.Q;
  default_summarization_level : Z;
  anthropic_api_key : string;
  anthropic_model : string;
  anthropic_max_tokens : Z;
  min_characters : Z;
  rate_limit : QArith_base.Q;
  max_retries : Z;
  perplexity_api_key : string
}.

(** [backoff.on_exception(backoff.expo, Exception, max_tries=n)]: the
    decorated function is called again after every exception, and the
    exception of the [n]-th call is raised.  [retry k] has [k] more calls
    to make after the next one.  The waits between the calls take time and
    nothing else. *)
Fixpoint retry {World : Type} (more : nat)
    (target : World -> outcome string * World) (w : World)
    : outcome string * World :=
  match target w, more with
  | (Return s, w'), _ => (Return s, w')
  | (Raise e, w'), O => (Raise e, w')
  | (Raise e, w'), S k => retry k target w'
  end.

Definition on_exception {World : Type} (max_tries : nat)
    (target : World -> outcome string * World)
    : World -> outcome string * World :=
  retry (Nat.pred max_tries) target.

(** The prompt of the OpenAI and Claude adapters. *)
Definition prompt (summarization_level : Z) (note : string) : string :=
  "Summarize the following notes into approximately "
  ++ Py.str_of_int summarization_level
  ++ " bullet points. Start each bullet point with '-' and ensure each is complete. Do not include any introductory text:"
  ++ String LF (String LF note).

(** The list comprehension of [summarize_with_watson]:
    [[f"- {sentence.strip()}" for sentence in sentences if sentence.strip()]]. *)
Fixpoint bullet_points (sentences : list string) : list string :=
  match sentences with
  | [] => []
  | sentence :: rest =>
      if Py.truthy (Py.strip sentence)
      then ("- " ++ Py.strip sentence) :: bullet_points rest
      else bullet_points rest
  end.

Section Adapters.

(** The state of everything outside the program that the vendor calls
    read and change. *)
Variable World : Type.

(** The vendor calls.  [client.messages.create] of Anthropic, with the
    text the adapter takes from [response.content]; *)
Variable anthropic_messages_create :
  Config -> string -> World -> reply * World.
(** [client.chat.completions.create] of OpenAI, with
    [response.choices[0].message.content]; *)
Variable openai_chat_completions_create :
  Config -> string -> World -> reply * World.
(** [natural_language_understanding.analyze] of Watson, called with the
    note and [SummarizationOptions(limit=summarization_level)]. *)
Variable watson_analyze :
  Config -> string -> Z -> World -> watson_reply * World.

(** [summarize_with_claude] before decoration.  [async with throttler]
    delays the start of the call and does nothing else. *)
Definition summarize_with_claude_undecorated
    (note : string) (config : Config) (summarization_level : Z)
    (w : World) : outcome string * World :=
  match anthropic_messages_create config (prompt summarization_level note) w with
  | (Returned summary, w') => (Return (clean_summary summary), w')
  | (Raised e, w') =>
      (Raise (SummarizationError ("Claude summarization failed: " ++ e)), w')
  end.

Definition summarize_with_claude
    (note : string) (config : Config) (summarization_level : Z)
    : World -> outcome string * World :=
  on_exception 10
    (summarize_with_claude_undecorated note config summarization_level).

Definition summarize_with_openai_undecorated
    (note : string) (config : Config) (summarization_level : Z)
    (w : World) : outcome string * World :=
  match openai_chat_completions_create config (prompt summarization_level note) w with
  | (Returned content, w') =>
      let summary := Py.strip content in
      (Return (clean_summary summary), w')
  | (Raised e, w') =>
      (Raise (SummarizationError ("OpenAI summarization failed: " ++ e)), w')
  end.

Definition summarize_with_openai
    (note : string) (config : Config) (summarization_level : Z)
    : World -> outcome string * World :=
  on_exception 10
    (summarize_with_openai_undecorated note config summarization_level).

(** [summarize_with_watson] before decoration.  An exception raised
    inside [async with watson_client(config)] is thrown into the context
    manager at its [yield], whose [except Exception] raises it again as a
    "client initialization" [SummarizationError]; the [except Exception]
    of the adapter then wraps that one. *)
Definition summarize_with_watson_undecorated
    (note : string) (config : Config) (summarization_level : Z)
    (w : World) : outcome string * World :=
  let in_client (e : string) :=
    Raise (SummarizationError
             ("Watson summarization failed: "
              ++ "Watson client initialization failed: " ++ e)) in
  match watson_analyze config note summarization_level w with
  | (WatsonResult (Some summary), w') =>
      let sentences := Py.split "."%char summary in
      (Return (Py.join (String LF "") (bullet_points sentences)), w')
  | (WatsonResult None, w') =>
      (in_client "Watson API did not return a summary", w')
  | (WatsonRaised e, w') => (in_client e, w')
  end.

Definition summarize_with_watson
    (note : string) (config : Config) (summarization_level : Z)
    : World -> outcome string * World :=
  on_exception 10
    (summarize_with_watson_undecorated note config summarization_level).

End Adapters.

(** ** extractors.py *)

(** [re.sub(r'[^\x09\x0A\x0D\x20-\x7F]', '', text)] *)
Definition xml_char (c : ascii) : bool :=
  let n := nat_of_ascii c in
  ((n =? 9) || (n =? 10) || (n =? 13) || (32 <=? n) && (n <=? 127))%nat.

Fixpoint clean_text_for_xml (text : string) : string :=
  match text with
  | EmptyString => EmptyString
  | String c rest =>
      if xml_char c then String c (clean_text_for_xml rest)
      else clean_text_for_xml rest
  end.

(** A slide of a loaded presentation, as [extract_notes_from_presentation]
    reads it: without a notes slide, with a notes slide whose text frame is
    [None] or has a text, or one whose reading raises an exception. *)
Inductive slide : Type :=
| NoNotesSlide
| NotesSlide (notes_text_frame : option string)
| BrokenSlide (e : string).

(** The body of the [for] loop of [extract_notes_from_presentation],
    [i] being the index [enumerate] gives the slide. *)
Definition extract_slide (i : Z) (s : slide) : Z * string :=
  match s with
  | NotesSlide frame =>
      let notes_text := match frame with Some text => text | None => "" end in
      let notes_text := clean_text_for_xml notes_text in
      (i + 1, if Py.truthy notes_text then notes_text else "No notes found.")
  | NoNotesSlide => (i + 1, "No notes slide.")
  | BrokenSlide e => (i + 1, "Error processing slide: " ++ e)
  end.

Fixpoint extract_from (i : Z) (slides : list slide) : list (Z * string) :=
  match slides with
  | [] => []
  | s :: rest => extract_slide i s :: extract_from (i + 1) rest
  end.

(** [extract_notes_from_presentation] on a presentation that was found,
    could be read and was loaded: [slides] is [prs.slides]. *)
Definition extract_notes_from_presentation (slides : list slide)
    : list (Z * string) :=
  extract_from 0 slides.

(** ** main.py *)

Inductive provider : Type := OpenAI | Watson | Claude.

(** What [summarize_note] does that can be seen from outside: it calls an
    adapter, and it sleeps between two attempts. *)
Inductive event : Type :=
| Attempt (p : provider) (note : string) (summarization_level : Z)
| Sleep (seconds : Z).

Record run_state (World : Type) : Type := {
  world : World;
  events : list event
}.
Arguments world {World} r.
Arguments events {World} r.
Arguments Build_run_state {World} world events.

(** Computations of main.py: they read and change the state of the run and
    end with a value or an exception. *)
Definition M (World A : Type) : Type :=
  run_state World -> outcome A * run_state World.

Definition ret {World A : Type} (a : A) : M World A :=
  fun st => (Return a, st).

Definition bind {World A B : Type} (c : M World A) (k : A -> M World B)
    : M World B :=
  fun st =>
    match c st with
    | (Return a, st') => k a st'
    | (Raise e, st') => (Raise e, st')
    end.

Notation "x <- c ;; k" := (bind c (fun x => k))
  (at level 61, c at next level, right associativity).

(** [await adapter(note, config, summarization_level, throttler)] *)
Definition await_adapter {World : Type} (p : provider)
    (adapter : string -> Config -> Z -> World -> outcome string * World)
    (note : string) (config : Config) (summarization_level : Z)
    : M World string :=
  fun st =>
    let (r, w') := adapter note config summarization_level (world st) in
    (r, {| world := w';
           events := (events st ++ [Attempt p note summarization_level])%list |}).

(** [await asyncio.sleep(seconds)] *)
Definition asyncio_sleep {World : Type} (seconds : Z) : M World unit :=
  fun st =>
    (Return tt, {| world := world st;
                   events := (events st ++ [Sleep seconds])%list |}).

(** The command line of main.py after [parse_args]. *)
Record Args : Type := {
  presentation : string;
  output : string;
  ai : string;
  config_path : string;
  format : string;
  extract_only : bool;
  summary_only : bool;
  verbose : bool;
  summarization_level : option Z
}.

Section Orchestrator.

Variable World : Type.

(** The three adapters [summarize_note] calls by name. *)
Variables summarize_with_openai summarize_with_watson summarize_with_claude :
  string -> Config -> Z -> World -> outcome string * World.

(** The [try] block of [summarize_note]. *)
Definition summarize_note_try (note : string) (ai : string)
    (config : Config) (summarization_level : Z) : M World string :=
  if (ai =? "openai")%string then
    await_adapter OpenAI summarize_with_openai note config summarization_level
  else if (ai =? "watson")%string then
    await_adapter Watson summarize_with_watson note config summarization_level
  else if (ai =? "claude")%string then
    await_adapter Claude summarize_with_claude note config summarization_level
  else ret note.

(** The [for attempt in range(config.max_retries)] loop of
    [summarize_note], with [turns] values of [attempt] still to come, the
    next one being [attempt].  The function returns [None] when the loop
    ends without a [return]. *)
Fixpoint summarize_note_from (turns : nat) (attempt : Z)
    (note : string) (slide_number : Z) (ai : string) (config : Config)
    (summarization_level : Z) : M World (option string) :=
  match turns with
  | O => ret None
  | S turns' =>
      fun st =>
        match summarize_note_try note ai config summarization_level st with
        | (Return summary, st') => (Return (Some summary), st')
        | (Raise (SummarizationError e), st') =>
            if attempt =? max_retries config - 1
            then (Return (Some ("Error in summarization: " ++ e)), st')
            else (_ <- asyncio_sleep (2 ^ attempt) ;;
                  summarize_note_from turns' (attempt + 1) note slide_number
                    ai config summarization_level) st'
        | (Raise e, st') => (Raise e, st')
        end
  end.

Definition summarize_note (note : string) (slide_number : Z) (ai : string)
    (config : Config) (summarization_level : Z) : M World (option string) :=
  summarize_note_from (Z.to_nat (max_retries config)) 0
    note slide_number ai config summarization_level.

(** The body of the [for slide_number, note in notes] loop of [main]: the
    triple it appends to [summaries].  The summary is [None] when
    [summarize_note] returned [None]. *)
Definition summarize_slide (args : Args) (config : Config) (level : Z)
    (unit : Z * string) : M World (Z * option string * string) :=
  let (slide_number, note) := unit in
  summary <-
    (if (note =? "No notes found.")%string || (note =? "No notes slide.")%string
     then ret (Some note)
     else if Py.len note <? min_characters config
     then ret (Some note)
     else summarize_note note slide_number (ai args) config level) ;;
  if summary_only args
  then ret (slide_number, summary, "")
  else ret (slide_number, summary, note).

Fixpoint summarize_slides (args : Args) (config : Config) (level : Z)
    (notes : list (Z * string)) : M World (list (Z * option string * string)) :=
  match notes with
  | [] => ret []
  | unit :: rest =>
      triple <- summarize_slide args config level unit ;;
      triples <- summarize_slides args config level rest ;;
      ret (triple :: triples)
  end.

(** [main] from the defaulting of [args.summarization_level] to the end
    of the [if not args.extract_only] statement: the value of
    [summaries] that goes to the writer. *)
Definition main_summaries (args : Args) (config : Config)
    (notes : list (Z * string)) : M World (list (Z * option string * string)) :=
  let level :=
    match summarization_level args with
    | None => default_summarization_level config
    | Some level => level
    end in
  if negb (extract_only args)
  then summarize_slides args config level notes
  else ret (map (fun '(slide_number, note) => (slide_number, Some "", note)) notes).

End Orchestrator.

Section Program.

Variable World : Type.
Variable anthropic_messages_create :
  Config -> string -> World -> reply * World.
Variable openai_chat_completions_create :
  Config -> string -> World -> reply * World.
Variable watson_analyze :
  Config -> string -> Z -> World -> watson_reply * World.

(** [main] from the extraction of the notes of a loaded presentation to
    the value of [summaries], with the adapters of summarizers.py. *)
Definition main (args : Args) (config : Config) (slides : list slide)
    : M World (list (Z * option string * string)) :=
  let notes := extract_notes_from_presentation slides in
  main_summaries World
    (summarize_with_openai World openai_chat_completions_create)
    (summarize_with_watson World watson_analyze)
    (summarize_with_claude World anthropic_messages_create)
    args config notes.

End Program.

(** ** writers.py *)

(** [if summary:] for a summary that can be [None]. *)
Definition summary_truthy (summary : option string) : bool :=
  match summary with
  | Some text => Py.truthy text
  | None => false
  end.

(** The [for] loop of [write_summary_to_txt]: what it writes to the file. *)
Fixpoint write_slides_to_txt (summaries : list (Z * option string * string))
    (summary_only : bool) : string :=
  match summaries with
  | [] => ""
  | (slide_number, summary, note) :: rest =>
      ("Slide " ++ Py.str_of_int slide_number ++ String LF "")
      ++ (match summary with
          | Some text =>
              if Py.truthy text
              then "Summary:" ++ String LF (text ++ String LF (String LF ""))
              else ""
          | None => ""
          end)
      ++ (if negb summary_only && Py.truthy note
          then "Notes:" ++ String LF (note ++ String LF (String LF ""))
          else "")
      ++ write_slides_to_txt rest summary_only
  end.

(** [write_summary_to_txt], for an output path that can be written: the
    text of the file. *)
Definition write_summary_to_txt (summaries : list (Z * option string * string))
    (summary_only : bool) : string :=
  "Presentation Notes" ++ String LF (String LF "")
  ++ write_slides_to_txt summaries summary_only.

Section ProgramToText.

Variable World : Type.
Variable anthropic_messages_create :
  Config -> string -> World -> reply * World.
Variable openai_chat_completions_create :
  Config -> string -> World -> reply * World.
Variable watson_analyze :
  Config -> string -> Z -> World -> watson_reply * World.

(** [main] with [--format txt] and an output path that can be written,
    from the extraction on: the text of the output file. *)
Definition main_to_txt (args : Args) (config : Config) (slides : list slide)
    : M World string :=
  summaries <- main World anthropic_messages_create openai_chat_completions_create
                 watson_analyze args config slides ;;
  ret (write_summary_to_txt summaries (summary_only args)).

End ProgramToText.

(** ** config.py: [load_config] *)

(** [Config.__annotations__.keys()] *)
Definition expected_keys : list string :=
  [ "watson_api_key"; "watson_service_url"; "openai_api_key"; "openai_model";
    "openai_max_tokens"; "openai_temperature"; "default_summarization_level";
    "anthropic_api_key"; "anthropic_model"; "anthropic_max_tokens";
    "min_characters"; "rate_limit"; "max_retries"; "perplexity_api_key" ].

(** [k in keys] *)
Definition key_in (k : string) (keys : list string) : bool :=
  existsb (String.eqb k) keys.

(** The exceptions [load_config] raises.  The message of the error for
    missing keys lists them in the order of a Python set, which is not
    fixed: the keys are kept instead of the message.  [AttributeError] is
    what [config_dict.keys()] raises when the document is not an object. *)
Inductive load_exception : Type :=
| FileNotFoundError (message : string)
| PermissionError (message : string)
| IOError (message : string)
| ValueError (message : string)
| ValueErrorMissingKeys (missing_keys : list string)
| ValueErrorInvalidData
| AttributeError.

Section LoadConfig.

(** The values of a JSON document. *)
Variable Value : Type.

(** What [json.loads] makes of the text of the file: an error, an object
    with its items, or a document that is not an object. *)
Inductive json_document : Type :=
| NotJSON (e : string)
| JSONObject (items : list (string * Value))
| JSONOther.

(** The configuration file as [load_config] finds it: absent, without
    read permission, failing when read, or read. *)
Inductive config_file : Type :=
| Absent
| Unreadable
| ReadFails (e : string)
| Holds (document : json_document).

(** A [Config] object is given by the keyword arguments it was made from. *)
Inductive load_result : Type :=
| Loaded (kwargs : list (string * Value))
| LoadFailed (e : load_exception).

(** [Config] called with keyword arguments: the generated [__init__]
    raises [TypeError] for a missing or an unexpected keyword, and checks
    no value. *)
Definition Config_init (kwargs : list (string * Value))
    : option (list (string * Value)) :=
  if forallb (fun k => key_in k (map fst kwargs)) expected_keys
     && forallb (fun k => key_in k expected_keys) (map fst kwargs)
  then Some kwargs
  else None.

Definition load_config (config_path : string) (file : config_file) : load_result :=
  match file with
  | Absent =>
      LoadFailed (FileNotFoundError ("Configuration file not found: " ++ config_path))
  | Unreadable =>
      LoadFailed (PermissionError
                    ("No read permissions for configuration file: " ++ config_path))
  | ReadFails e =>
      LoadFailed (IOError ("Failed to read configuration file: " ++ e))
  | Holds (NotJSON e) =>
      LoadFailed (ValueError ("Invalid JSON in configuration file: " ++ e))
  | Holds JSONOther => LoadFailed AttributeError
  | Holds (JSONObject config_dict) =>
      let missing_keys :=
        filter (fun k => negb (key_in k (map fst config_dict))) expected_keys in
      match missing_keys with
      | _ :: _ => LoadFailed (ValueErrorMissingKeys missing_keys)
      | [] =>
          let filtered_config :=
            filter (fun item => key_in (fst item) expected_keys) config_dict in
          match Config_init filtered_config with
          | Some config => Loaded config
          | None => LoadFailed ValueErrorInvalidData
          end
      end
  end.

End LoadConfig.

Arguments NotJSON {Value} e.
Arguments JSONObject {Value} items.
Arguments JSONOther {Value}.
Arguments Absent {Value}.
Arguments Unreadable {Value}.
Arguments ReadFails {Value} e.
Arguments Holds {Value} document.
Arguments Loaded {Value} kwargs.
Arguments LoadFailed {Value} e.

(** ** Notions the properties are stated with *)

(** [sub in s] *)
Fixpoint contains (s sub : string) : bool :=
  String.prefix sub s ||
  match s with
  | EmptyString => false
  | String _ s' => contains s' sub
  end.

(** The lines of a text: none for the empty text, else its pieces between
    line feeds. *)
Definition lines_of (text : string) : list string :=
  if Py.truthy text then Py.split LF text else [].

(** A text that starts with neither a dash nor a white space character, or
    is empty. *)
Definition clean_start (text : string) : bool :=
  match text with
  | EmptyString => true
  | String c _ => negb (Ascii.eqb c "-") && negb (Py.isspace c)
  end.

(** A line that begins with exactly one ["- "] marker: what follows the
    marker is not one more dash or space. *)
Definition bullet_line (line : string) : bool :=
  match line with
  | String "-" (String " " text) => clean_start text
  | _ => false
  end.

(** A blank line: empty, or white space only. *)
Definition blank (line : string) : bool := negb (Py.truthy (Py.strip line)).

(** [c in s] for one character. *)
Fixpoint has_char (c : ascii) (s : string) : bool :=
  match s with
  | EmptyString => false
  | String x s' => Ascii.eqb x c || has_char c s'
  end.

(** The replacement [clean_summary] ends with. *)
Definition collapse (text : string) : string := Py.replace "- -" "-" text.

(** The text of a bullet after its marker, as [clean_summary] leaves it: no
    dash or white space in front, no white space at the end, one line. *)
Definition bullet_text (text : string) : Prop :=
  clean_start text = true /\ Py.rstrip text = text /\ has_char LF text = false.

(** The bullets of a cleaned summary, before they are joined. *)
Definition bullets (summary : string) : list string :=
  map collapse (cleaned_lines (Py.split LF summary)).

(** The fields of a triple of [summaries]. *)
Definition slide_index (t : Z * option string * string) : Z := fst (fst t).
Definition summary_of (t : Z * option string * string) : option string :=
  snd (fst t).
Definition note_of (t : Z * option string * string) : string := snd t.

(** The provider an [--ai] value names. *)
Definition provider_of (ai : string) : option provider :=
  if (ai =? "openai")%string then Some OpenAI
  else if (ai =? "watson")%string then Some Watson
  else if (ai =? "claude")%string then Some Claude
  else None.

Definition adapter_of {World : Type}
    (openai watson claude : string -> Config -> Z -> World -> outcome string * World)
    (p : provider) : string -> Config -> Z -> World -> outcome string * World :=
  match p with
  | OpenAI => openai
  | Watson => watson
  | Claude => claude
  end.

(** A provider operation that fails with a [SummarizationError] on a note,
    whatever the state of the world. *)
Definition fails_on {World : Type}
    (adapter : string -> Config -> Z -> World -> outcome string * World)
    (note : string) (config : Config) (level : Z) : Prop :=
  forall w, exists e w',
    adapter note config level w = (Raise (SummarizationError e), w').

(** A provider operation that always fails with a [SummarizationError]. *)
Definition always_fails {World : Type}
    (adapter : string -> Config -> Z -> World -> outcome string * World) : Prop :=
  forall note config level, fails_on adapter note config level.

(** A provider operation from which no exception other than
    [SummarizationError] comes out. *)
Definition raises_summarization_errors_only {World : Type}
    (adapter : string -> Config -> Z -> World -> outcome string * World) : Prop :=
  forall note config level w e w',
    adapter note config level w = (Raise e, w') ->
    exists message, e = SummarizationError message.

(** The sentinel texts of the extraction. *)
Definition sentinel (note : string) : bool :=
  (note =? "No notes found.")%string || (note =? "No notes slide.")%string.

(** A summary the writers leave out: [if summary:] is false for it. *)
Definition summary_omitted (t : Z * option string * string) : bool :=
  negb (summary_truthy (summary_of t)).

(** The indices [1, 2, ..., n] from [i + 1] on. *)
Fixpoint indices_from (i : Z) (n : nat) : list Z :=
  match n with
  | O => []
  | S n' => (i + 1) :: indices_from (i + 1) n'
  end.




(** What a unit whose every attempt fails leaves in the events: [turns]
    attempts, from [attempt] on, with a sleep of [2 ^ attempt] after each
    one but the last. *)
Fixpoint failing_attempts (p : provider) (note : string) (level : Z)
    (turns : nat) (attempt : Z) : list event :=
  match turns with
  | O => []
  | S O => [Attempt p note level]
  | S turns' =>
      Attempt p note level :: Sleep (2 ^ attempt)
      :: failing_attempts p note level turns' (attempt + 1)
  end.

(** A provider operation that succeeds on a note, whatever the state of
    the world. *)
Definition succeeds_on {World : Type}
    (adapter : string -> Config -> Z -> World -> outcome string * World)
    (note : string) (config : Config) (level : Z) : Prop :=
  forall w, exists summary w',
    adapter note config level w = (Return summary, w').

(** The error messages and the summaries a provider operation can give for
    a note. *)
Definition raised_by {World : Type}
    (adapter : string -> Config -> Z -> World -> outcome string * World)
    (note : string) (config : Config) (level : Z) (e : string) : Prop :=
  exists w w', adapter note config level w = (Raise (SummarizationError e), w').

Definition returned_by {World : Type}
    (adapter : string -> Config -> Z -> World -> outcome string * World)
    (note : string) (config : Config) (level : Z) (summary : string) : Prop :=
  exists w w', adapter note config level w = (Return summary, w').

(** The summarization level [main] works with. *)
Definition level_of (args : Args) (config : Config) : Z :=
  match summarization_level args with
  | None => default_summarization_level config
  | Some level => level
  end.

(** The outcome of an eligible unit depends on its own provider calls only:
    when they all fail the summary is the error text of one of them, and
    when they all succeed it is a summary they returned. *)
Definition isolated {World : Type}
    (adapter : string -> Config -> Z -> World -> outcome string * World)
    (config : Config) (level : Z)
    (unit : Z * string) (out : Z * option string * string) : Prop :=
  sentinel (snd unit) = false ->
  min_characters config <= Py.len (snd unit) ->
  (fails_on adapter (snd unit) config level ->
   exists e, summary_of out = Some ("Error in summarization: " ++ e)
             /\ raised_by adapter (snd unit) config level e)
  /\ (succeeds_on adapter (snd unit) config level ->
      exists summary, summary_of out = Some summary
                      /\ returned_by adapter (snd unit) config level summary).

(** ** Sample runs *)

Definition sample_config (retries min_chars : Z) : Config := {|
  watson_api_key := "watson-key";
  watson_service_url := "https://watson.example";
  openai_api_key := "openai-key";
  openai_model := "gpt";
  openai_max_tokens := 500;
  openai_temperature := QArith_base.Qmake 7 10;
  default_summarization_level := 5;
  anthropic_api_key := "anthropic-key";
  anthropic_model := "claude";
  anthropic_max_tokens := 500;
  min_characters := min_chars;
  rate_limit := QArith_base.Qmake 1 1;
  max_retries := retries;
  perplexity_api_key := ""
|}.

Definition sample_args (ai : string) (summary_only : bool) : Args := {|
  presentation := "deck.pptx";
  output := "summary.docx";
  ai := ai;
  config_path := "config.json";
  format := "docx";
  extract_only := false;
  summary_only := summary_only;
  verbose := false;
  summarization_level := None
|}.

(** A world that counts the vendor calls made so far. *)
Definition start : run_state nat := {| world := O; events := [] |}.

(** An adapter that is down, and one that answers. *)
Definition adapter_down (note : string) (config : Config) (level : Z) (calls : nat)
    : outcome string * nat :=
  (Raise (SummarizationError "quota exceeded"), S calls).

Definition adapter_up (note : string) (config : Config) (level : Z) (calls : nat)
    : outcome string * nat :=
  (Return "- done", S calls).

(** A vendor that is down. *)
Definition vendor_down (config : Config) (request : string) (calls : nat)
    : reply * nat :=
  (Raised "connection refused", S calls).

Definition watson_down (config : Config) (note : string) (level : Z) (calls : nat)
    : watson_reply * nat :=
  (WatsonRaised "connection refused", S calls).

(** Vendors that answer, except Watson on a note that begins with "bad". *)
Definition vendor_up (config : Config) (request : string) (calls : nat)
    : reply * nat :=
  (Returned "- - one", S calls).

Definition watson_picky (config : Config) (note : string) (level : Z) (calls : nat)
    : watson_reply * nat :=
  if Py.startswith note "bad"
  then (WatsonRaised "timeout", S calls)
  else (WatsonResult (Some "One. Two."), S calls).

(** Watson answering with text that is already bulleted. *)
Definition watson_bulleted (config : Config) (note : string) (level : Z) (w : unit)
    : watson_reply * unit :=
  (WatsonResult (Some "- First. - Second."), w).

(** A presentation of five slides; the notes of the third one begin with
    "bad". *)
Definition sample_slides : list slide :=
  [ NotesSlide (Some "Welcome and agenda of the talk.");
    NotesSlide (Some "Results of the first quarter.");
    NotesSlide (Some "bad weather delayed the launch.");
    NotesSlide (Some "Plans for the next quarter.");
    NotesSlide (Some "Questions and closing words.") ].

(** ** Notions for the further properties *)

(** Every character of a text passes a test. *)
Fixpoint all_chars (test : ascii -> bool) (text : string) : bool :=
  match text with
  | EmptyString => true
  | String c rest => test c && all_chars test rest
  end.

(** The adapter calls and the sleeps among some events, and the time
    slept. *)
Fixpoint count_attempts (evs : list event) : nat :=
  match evs with
  | [] => O
  | Attempt _ _ _ :: rest => S (count_attempts rest)
  | Sleep _ :: rest => count_attempts rest
  end.

Fixpoint count_sleeps (evs : list event) : nat :=
  match evs with
  | [] => O
  | Attempt _ _ _ :: rest => count_sleeps rest
  | Sleep _ :: rest => S (count_sleeps rest)
  end.

Fixpoint total_sleep (evs : list event) : Z :=
  match evs with
  | [] => 0
  | Attempt _ _ _ :: rest => total_sleep rest
  | Sleep seconds :: rest => seconds + total_sleep rest
  end.

(** A unit that goes to [summarize_note]: not a sentinel and not shorter
    than [min_characters]. *)
Definition eligible (config : Config) (note : string) : bool :=
  negb (sentinel note) && negb (Py.len note <? min_characters config).

(** A slide for which the extraction finds no notes: no notes slide, no
    text frame, or a text without any character that XML accepts. *)
Definition without_notes (s : slide) : bool :=
  match s with
  | NoNotesSlide => true
  | NotesSlide None => true
  | NotesSlide (Some text) => negb (Py.truthy (clean_text_for_xml text))
  | BrokenSlide _ => false
  end.

(** A vendor call with a counter of the calls made beside the world. *)
Definition counted {World : Type}
    (vendor : Config -> string -> World -> reply * World)
    (config : Config) (request : string) (w : World * nat)
    : reply * (World * nat) :=
  let (r, w') := vendor config request (fst w) in
  (r, (w', S (snd w))).

Definition counted_watson {World : Type}
    (vendor : Config -> string -> Z -> World -> watson_reply * World)
    (config : Config) (note : string) (level : Z) (w : World * nat)
    : watson_reply * (World * nat) :=
  let (r, w') := vendor config note level (fst w) in
  (r, (w', S (snd w))).

(** The words an adapter puts before the message of a failure. *)
Definition failure_prefix (p : provider) : string :=
  match p with
  | OpenAI => "OpenAI summarization failed: "
  | Watson => "Watson summarization failed: Watson client initialization failed: "
  | Claude => "Claude summarization failed: "
  end.

(** An event of the work on one note: a call of the adapter of a provider
    with that note and level, or a sleep of at least one second. *)
Definition concerns (p : provider) (note : string) (level : Z) (e : event) : Prop :=
  match e with
  | Attempt p' note' level' => p' = p /\ note' = note /\ level' = level
  | Sleep seconds => 1 <= seconds
  end.

(** An adapter that fails on its first call and answers afterwards, and
    one that raises an exception of another class. *)
Definition adapter_flaky (note : string) (config : Config) (level : Z) (calls : nat)
    : outcome string * nat :=
  match calls with
  | O => (Raise (SummarizationError "timeout"), S calls)
  | S _ => (Return "- done", S calls)
  end.

Definition adapter_broken (note : string) (config : Config) (level : Z) (calls : nat)
    : outcome string * nat :=
  (Raise (Exception "object has no attribute"), S calls).

(** An event of the work on a batch: a call of the adapter of the chosen
    provider, at the level of the run, with an eligible note of the batch,
    or a sleep of at least one second. *)
Definition dispatched (p : option provider) (config : Config) (level : Z)
    (notes : list (Z * string)) (e : event) : Prop :=
  match e with
  | Attempt p' note' level' =>
      p = Some p' /\ level' = level /\ eligible config note' = true
      /\ In note' (map snd notes)
  | Sleep seconds => 1 <= seconds
  end.

Definition count_eligible (config : Config) (notes : list (Z * string)) : nat :=
  List.length (filter (fun unit => eligible config (snd unit)) notes).

(** The triple of a unit that is passed through. *)
Definition passed_through (args : Args) (unit : Z * string)
    : Z * option string * string :=
  (fst unit, Some (snd unit), if summary_only args then "" else snd unit).

(** A text file with the notes only: a heading and the notes of every
    slide; and one with the headings only. *)
Fixpoint notes_sections (notes : list (Z * string)) : string :=
  match notes with
  | [] => ""
  | (slide_number, note) :: rest =>
      ("Slide " ++ Py.str_of_int slide_number ++ String LF "")
      ++ ("Notes:" ++ String LF (note ++ String LF (String LF "")))
      ++ notes_sections rest
  end.

Fixpoint slide_headings (notes : list (Z * string)) : string :=
  match notes with
  | [] => ""
  | (slide_number, note) :: rest =>
      ("Slide " ++ Py.str_of_int slide_number ++ String LF "")
      ++ slide_headings rest
  end.

(** A slide that can be read. *)
Definition readable (s : slide) : bool :=
  match s with
  | BrokenSlide _ => false
  | _ => true
  end.

(** ** Notions for the outcome of every unit of a run *)

(** The calls of an adapter made for one note from a state of the world:
    at most [turns] of them, one after the other as long as they raise a
    [SummarizationError]; their results in order, and the world after the
    last one. *)
Fixpoint unit_calls {World : Type}
    (adapter : string -> Config -> Z -> World -> outcome string * World)
    (note : string) (config : Config) (level : Z) (turns : nat) (w : World)
    : list (outcome string) * World :=
  match turns with
  | O => ([], w)
  | S turns' =>
      match adapter note config level w with
      | (Raise (SummarizationError e), w') =>
          let (calls, w'') := unit_calls adapter note config level turns' w' in
          (Raise (SummarizationError e) :: calls, w'')
      | (r, w') => ([r], w')
      end
  end.

(** The summary that the calls made for a unit leave it with: the summary
    the last call returned, the error text with the message of the
    [SummarizationError] the last call raised, and none without a call. *)
Fixpoint verdict (calls : list (outcome string)) : option string :=
  match calls with
  | [] => None
  | last_call :: [] =>
      match last_call with
      | Return summary => Some summary
      | Raise (SummarizationError e) => Some ("Error in summarization: " ++ e)
      | Raise (Exception _) => None
      end
  | _ :: later => verdict later
  end.

(** What the loop of [main] makes of one unit, from the state of the run it
    finds to the state it leaves: a unit that is not eligible is passed
    through and the state is left as it is; an eligible unit gets the
    verdict of the calls made for it from the world it finds. *)
Definition unit_outcome {World : Type}
    (adapter : string -> Config -> Z -> World -> outcome string * World)
    (config : Config) (level : Z)
    (unit : Z * string) (st : run_state World)
    (out : Z * option string * string) (st' : run_state World) : Prop :=
  slide_index out = fst unit
  /\ if eligible config (snd unit)
     then summary_of out
          = verdict (fst (unit_calls adapter (snd unit) config level
                            (Z.to_nat (max_retries config)) (world st)))
          /\ world st'
             = snd (unit_calls adapter (snd unit) config level
                      (Z.to_nat (max_retries config)) (world st))
     else summary_of out = Some (snd unit) /\ st' = st.

(** A run over a batch: every unit starts in the state the unit before it
    left. *)
Inductive batch_run {World : Type}
    (step : Z * string -> run_state World ->
            Z * option string * string -> run_state World -> Prop)
    : list (Z * string) -> run_state World ->
      list (Z * option string * string) -> run_state World -> Prop :=
| batch_done (st : run_state World) : batch_run step [] st [] st
| batch_step (unit : Z * string) (rest : list (Z * string))
    (st st1 st' : run_state World)
    (out : Z * option string * string)
    (outs : list (Z * option string * string)) :
    step unit st out st1 ->
    batch_run step rest st1 outs st' ->
    batch_run step (unit :: rest) st (out :: outs) st'.

(** The events of the work on one unit of a batch: nothing for a unit that
    is not eligible or without a known provider, else some calls of the
    adapter with the note of the unit, at most [max_retries] of them, with
    a sleep between two calls and none after the last. *)
Definition unit_segment (p : option provider) (config : Config) (level : Z)
    (unit : Z * string) (segment : list event) : Prop :=
  match p with
  | Some p' =>
      if eligible config (snd unit)
      then exists k, (k <= Z.to_nat (max_retries config))%nat
                     /\ segment = failing_attempts p' (snd unit) level k 0
      else segment = []
  | None => segment = []
  end.

(** * Supporting lemmas *)

(** ** Facts on the string primitives *)

Section StringFacts.

Lemma append_empty_r (s : string) : s ++ "" = s.
Proof. induction s as [|c s IH]; simpl; congruence. Qed.

Lemma append_assoc (a b c : string) : (a ++ b) ++ c = a ++ (b ++ c).
Proof. induction a as [|x a IH]; simpl; congruence. Qed.

Lemma prefix_append (p s : string) :
  String.prefix p s = true <-> exists r, s = p ++ r.
Proof.
  revert s; induction p as [|a p IH]; intros s.
  - destruct s; simpl; split; eauto.
  - destruct s as [|b s]; simpl.
    + split; [discriminate | intros [r H]; discriminate].
    + destruct (ascii_dec a b) as [->|Hab].
      * rewrite IH. split; intros [r H]; exists r; congruence.
      * split; [discriminate | intros [r H]; congruence].
Qed.

Lemma prefix_cons (a b : ascii) (p s : string) :
  String.prefix (String a p) (String b s) = Ascii.eqb b a && String.prefix p s.
Proof.
  cbn [String.prefix]. destruct (ascii_dec a b) as [->|Hne].
  - now rewrite Ascii.eqb_refl.
  - replace (Ascii.eqb b a) with false; [reflexivity|].
    symmetry. apply Ascii.eqb_neq. congruence.
Qed.

Lemma prefix_dashes (s : string) :
  String.prefix "- -" s = true <-> exists r, s = "- -" ++ r.
Proof. apply prefix_append. Qed.



Lemma collapse_empty : collapse "" = "".
Proof. reflexivity. Qed.

Lemma collapse_match (r : string) : collapse ("- -" ++ r) = "-" ++ collapse r.
Proof. destruct r; reflexivity. Qed.

Lemma collapse_step (c : ascii) (r : string) :
  String.prefix "- -" (String c r) = false ->
  collapse (String c r) = String c (collapse r).
Proof.
  intros H. unfold collapse, Py.replace.
  cbn [Py.replace_from]. now rewrite H.
Qed.

(** Induction along the way [collapse] reads its argument. *)
Lemma collapse_ind (P : string -> Prop) :
  P "" ->
  (forall r, P r -> P ("- -" ++ r)) ->
  (forall c r, String.prefix "- -" (String c r) = false -> P r -> P (String c r)) ->
  forall s, P s.
Proof.
  intros Hnil Hmatch Hstep s.
  enough (H : forall n s, (String.length s <= n)%nat -> P s) by (apply (H (String.length s)); lia).
  clear s. induction n as [|n IH]; intros s Hlen.
  - destruct s; [exact Hnil | simpl in Hlen; lia].
  - destruct s as [|c r]; [exact Hnil|].
    destruct (String.prefix "- -" (String c r)) eqn:Hp.
    + apply prefix_dashes in Hp. destruct Hp as [r' Hr].
      simpl in Hr. injection Hr as -> ->.
      apply (Hmatch r'), IH. simpl in Hlen. lia.
    + apply Hstep; [exact Hp|]. apply IH. simpl in Hlen. lia.
Qed.

Lemma no_match_before_LF (c : ascii) (r b : string) :
  String.prefix "- -" (String c r) = false ->
  String.prefix "- -" (String c (r ++ String LF b)) = false.
Proof.
  intros H.
  destruct (String.prefix "- -" (String c (r ++ String LF b))) eqn:E; [|reflexivity].
  apply prefix_dashes in E. destruct E as [r' E]. simpl in E.
  injection E as -> E.
  destruct r as [|x r]; simpl in E; [discriminate|]. injection E as -> E.
  destruct r as [|y r]; simpl in E; [discriminate|]. injection E as -> E.
  destruct r; discriminate.
Qed.

Lemma collapse_app_LF (a b : string) :
  collapse (a ++ String LF b) = collapse a ++ String LF (collapse b).
Proof.
  induction a as [|r IH|c r Hc IH] using collapse_ind.
  - simpl. now apply collapse_step.
  - change (("- -" ++ r) ++ String LF b) with ("- -" ++ (r ++ String LF b)).
    rewrite !collapse_match, IH. reflexivity.
  - change (String c r ++ String LF b) with (String c (r ++ String LF b)).
    rewrite (collapse_step c r Hc).
    rewrite collapse_step by now apply no_match_before_LF.
    simpl. now rewrite IH.
Qed.

Lemma collapse_join (lines : list string) :
  collapse (Py.join (String LF "") lines)
  = Py.join (String LF "") (map collapse lines).
Proof.
  induction lines as [|l rest IH]; [reflexivity|].
  destruct rest as [|l2 rest]; [reflexivity|].
  change (Py.join (String LF "") (l :: l2 :: rest))
    with (l ++ String LF (Py.join (String LF "") (l2 :: rest))).
  rewrite collapse_app_LF, IH. reflexivity.
Qed.

Lemma has_char_append (c : ascii) (a b : string) :
  has_char c (a ++ b) = has_char c a || has_char c b.
Proof.
  induction a as [|x a IH]; simpl; [reflexivity|].
  now rewrite IH, orb_assoc.
Qed.

Lemma collapse_no_LF (s : string) :
  has_char LF s = false -> has_char LF (collapse s) = false.
Proof.
  induction s as [|r IH|c r Hc IH] using collapse_ind; intros H.
  - reflexivity.
  - rewrite collapse_match. simpl in H |- *. auto.
  - rewrite collapse_step by exact Hc. simpl in H |- *.
    apply orb_false_iff in H. destruct H as [H1 H2].
    rewrite H1. simpl. auto.
Qed.

Lemma lstrip_no_char (c : ascii) (s : string) :
  has_char c s = false -> has_char c (Py.lstrip s) = false.
Proof.
  induction s as [|x s IH]; simpl; intros H; [reflexivity|].
  apply orb_false_iff in H. destruct H as [H1 H2].
  destruct (Py.isspace x); [auto|]. simpl. now rewrite H1, H2.
Qed.

Lemma rstrip_no_char (c : ascii) (s : string) :
  has_char c s = false -> has_char c (Py.rstrip s) = false.
Proof.
  induction s as [|x s IH]; simpl; intros H; [reflexivity|].
  apply orb_false_iff in H. destruct H as [H1 H2]. specialize (IH H2).
  destruct (Py.rstrip s) as [|y r].
  - destruct (Py.isspace x); simpl; [reflexivity|]. now rewrite H1.
  - simpl in IH |- *. now rewrite H1, IH.
Qed.

Lemma tail_no_char (c : ascii) (s : string) :
  has_char c s = false -> has_char c (Py.tail s) = false.
Proof.
  destruct s as [|x s]; simpl; intros H; [reflexivity|].
  apply orb_false_iff in H. tauto.
Qed.

Lemma split_not_nil (sep : ascii) (s : string) : Py.split sep s <> [].
Proof.
  destruct s as [|c s]; simpl; [discriminate|].
  destruct (Ascii.eqb c sep); [discriminate|].
  destruct (Py.split sep s); discriminate.
Qed.

Lemma split_pieces (sep : ascii) (s : string) :
  Forall (fun piece => has_char sep piece = false) (Py.split sep s).
Proof.
  induction s as [|c s IH]; simpl.
  - constructor; [reflexivity | constructor].
  - destruct (Ascii.eqb c sep) eqn:E.
    + constructor; [reflexivity | exact IH].
    + destruct (Py.split sep s) as [|piece pieces].
      * constructor; [simpl; now rewrite E | constructor].
      * inversion IH; subst. constructor; [simpl; now rewrite E | assumption].
Qed.

Lemma split_append_sep (sep : ascii) (a b : string) :
  has_char sep a = false ->
  Py.split sep (a ++ String sep b) = a :: Py.split sep b.
Proof.
  induction a as [|x a IH]; simpl; intros H.
  - now rewrite Ascii.eqb_refl.
  - apply orb_false_iff in H. destruct H as [H1 H2].
    rewrite H1, (IH H2). reflexivity.
Qed.

Lemma split_no_sep (sep : ascii) (a : string) :
  has_char sep a = false -> Py.split sep a = [a].
Proof.
  induction a as [|x a IH]; simpl; intros H; [reflexivity|].
  apply orb_false_iff in H. destruct H as [H1 H2].
  rewrite H1, (IH H2). reflexivity.
Qed.

Lemma split_join (lines : list string) :
  Forall (fun l => has_char LF l = false) lines ->
  lines <> [] ->
  Py.split LF (Py.join (String LF "") lines) = lines.
Proof.
  induction lines as [|l rest IH]; intros Hall Hne; [congruence|].
  inversion Hall as [|? ? Hl Hrest]; subst.
  destruct rest as [|l2 rest].
  - simpl. now apply split_no_sep.
  - change (Py.join (String LF "") (l :: l2 :: rest))
      with (l ++ String LF (Py.join (String LF "") (l2 :: rest))).
    rewrite split_append_sep by exact Hl.
    rewrite IH; [reflexivity | exact Hrest | discriminate].
Qed.

Lemma startswith_char (x c : ascii) (r : string) :
  Py.startswith (String x r) (String c "") = Ascii.eqb x c.
Proof.
  unfold Py.startswith. simpl.
  destruct (ascii_dec c x) as [->|Hne].
  - rewrite Ascii.eqb_refl. destruct r; reflexivity.
  - symmetry. apply Ascii.eqb_neq. congruence.
Qed.

Lemma startswith_empty (p : ascii) : Py.startswith "" (String p "") = false.
Proof. reflexivity. Qed.

Lemma lstrip_length (s : string) :
  (String.length (Py.lstrip s) <= String.length s)%nat.
Proof.
  induction s as [|c s IH]; simpl; [lia|].
  destruct (Py.isspace c); simpl; lia.
Qed.

Lemma lstrip_idem (s : string) : Py.lstrip (Py.lstrip s) = Py.lstrip s.
Proof.
  induction s as [|c s IH]; simpl; [reflexivity|].
  destruct (Py.isspace c) eqn:E; [exact IH|]. simpl. now rewrite E.
Qed.

Lemma lstrip_fixed_head (c : ascii) (s : string) :
  Py.lstrip (String c s) = String c s -> Py.isspace c = false.
Proof.
  simpl. destruct (Py.isspace c); [|reflexivity].
  intros H. pose proof (lstrip_length s) as L. rewrite H in L. simpl in L. lia.
Qed.

Lemma rstrip_fixed_tail (c : ascii) (s : string) :
  Py.rstrip (String c s) = String c s -> Py.rstrip s = s.
Proof.
  simpl. destruct (Py.rstrip s) as [|y r] eqn:E.
  - destruct (Py.isspace c); intros H; [discriminate|].
    injection H as <-. reflexivity.
  - intros H. now injection H.
Qed.

Lemma rstrip_cons_fixed (c : ascii) (s : string) :
  Py.rstrip s = s -> Py.truthy s = true \/ Py.isspace c = false ->
  Py.rstrip (String c s) = String c s.
Proof.
  intros H Hor. simpl. rewrite H.
  destruct s as [|y r]; [|reflexivity].
  destruct Hor as [Ht|Hc]; [discriminate|]. now rewrite Hc.
Qed.

Lemma rstrip_fixed_last (c : ascii) :
  Py.rstrip (String c "") = String c "" -> Py.isspace c = false.
Proof. simpl. destruct (Py.isspace c); [discriminate | reflexivity]. Qed.

Lemma rstrip_idem (s : string) : Py.rstrip (Py.rstrip s) = Py.rstrip s.
Proof.
  induction s as [|c s IH]; simpl; [reflexivity|].
  destruct (Py.rstrip s) as [|y r] eqn:E.
  - destruct (Py.isspace c) eqn:Ec; simpl; [reflexivity|]. now rewrite Ec.
  - apply rstrip_cons_fixed; [exact IH | now left].
Qed.

Lemma lstrip_rstrip_fixed (s : string) :
  Py.rstrip s = s -> Py.rstrip (Py.lstrip s) = Py.lstrip s.
Proof.
  induction s as [|c s IH]; intros H; [reflexivity|].
  simpl. destruct (Py.isspace c); [|exact H].
  apply IH. now apply rstrip_fixed_tail in H.
Qed.

Lemma strip_rstrip_fixed (s : string) : Py.rstrip (Py.strip s) = Py.strip s.
Proof. apply lstrip_rstrip_fixed, rstrip_idem. Qed.

Lemma strip_lstrip_fixed (s : string) : Py.lstrip (Py.strip s) = Py.strip s.
Proof. apply lstrip_idem. Qed.

Lemma strip_no_char (c : ascii) (s : string) :
  has_char c s = false -> has_char c (Py.strip s) = false.
Proof. intros H. now apply lstrip_no_char, rstrip_no_char. Qed.

Lemma strip_nonspace_head (c : ascii) (s : string) :
  Py.isspace c = false -> exists r, Py.strip (String c s) = String c r.
Proof.
  intros Hc. unfold Py.strip. simpl.
  destruct (Py.rstrip s) as [|y r].
  - rewrite Hc. simpl. rewrite Hc. now exists "".
  - simpl. rewrite Hc. now exists (String y r).
Qed.

End StringFacts.

(** ** [clean_summary] *)

Section CleanSummary.

Lemma strip_bullets_clean_start (n : nat) (u : string) :
  (String.length u <= n)%nat -> Py.lstrip u = u ->
  clean_start (strip_bullets n u) = true.
Proof.
  revert u. induction n as [|n IH]; intros u Hlen Hl.
  - destruct u; [reflexivity | simpl in Hlen; lia].
  - destruct u as [|c r]; [reflexivity|].
    cbn [strip_bullets]. rewrite !startswith_char.
    destruct (Ascii.eqb c "-" || Ascii.eqb c " ") eqn:E.
    + apply IH; [|apply lstrip_idem].
      pose proof (lstrip_length r). simpl in Hlen |- *. lia.
    + apply orb_false_iff in E. destruct E as [E1 E2].
      simpl. rewrite E1, (lstrip_fixed_head c r Hl). reflexivity.
Qed.

Lemma strip_bullets_rstrip (n : nat) (u : string) :
  Py.rstrip u = u -> Py.rstrip (strip_bullets n u) = strip_bullets n u.
Proof.
  revert u. induction n as [|n IH]; intros u H; [exact H|].
  cbn [strip_bullets].
  destruct (Py.startswith u "-" || Py.startswith u " "); [|exact H].
  apply IH, lstrip_rstrip_fixed.
  destruct u as [|c r]; [reflexivity|]. simpl. now apply rstrip_fixed_tail in H.
Qed.

Lemma strip_bullets_no_char (n : nat) (c : ascii) (u : string) :
  has_char c u = false -> has_char c (strip_bullets n u) = false.
Proof.
  revert u. induction n as [|n IH]; intros u H; [exact H|].
  cbn [strip_bullets].
  destruct (Py.startswith u "-" || Py.startswith u " "); [|exact H].
  now apply IH, lstrip_no_char, tail_no_char.
Qed.

Lemma clean_line_some (line l : string) :
  has_char LF line = false ->
  clean_line line = Some l ->
  exists text, l = "- " ++ text /\ bullet_text text.
Proof.
  unfold clean_line. intros Hlf H.
  destruct (Py.truthy (Py.strip line)); [|discriminate].
  injection H as <-. eexists. split; [reflexivity|]. repeat split.
  - apply strip_bullets_clean_start; [lia | apply strip_lstrip_fixed].
  - apply strip_bullets_rstrip, strip_rstrip_fixed.
  - now apply strip_bullets_no_char, strip_no_char.
Qed.

Lemma clean_line_blank (line : string) :
  clean_line line = None <-> blank line = true.
Proof.
  unfold clean_line, blank.
  destruct (Py.truthy (Py.strip line)); simpl; split; congruence.
Qed.

Lemma cleaned_lines_bullets (lines : list string) :
  Forall (fun l => has_char LF l = false) lines ->
  Forall (fun l => exists text, l = "- " ++ text /\ bullet_text text)
    (cleaned_lines lines).
Proof.
  induction 1 as [|line rest Hline Hrest IH]; simpl; [constructor|].
  destruct (clean_line line) as [l|] eqn:E; [|exact IH].
  constructor; [|exact IH]. now apply (clean_line_some line).
Qed.


Lemma collapse_nonempty (r : string) : collapse r = "" -> r = "".
Proof.
  destruct r as [|c r]; [reflexivity|].
  destruct (String.prefix "- -" (String c r)) eqn:Hp.
  - apply prefix_dashes in Hp. destruct Hp as [r' ->].
    rewrite collapse_match. discriminate.
  - rewrite collapse_step by exact Hp. discriminate.
Qed.

Lemma collapse_rstrip (s : string) :
  Py.rstrip s = s -> Py.rstrip (collapse s) = collapse s.
Proof.
  induction s as [|r IH|c r Hc IH] using collapse_ind; intros H.
  - reflexivity.
  - rewrite collapse_match.
    do 3 apply rstrip_fixed_tail in H.
    apply rstrip_cons_fixed; [now apply IH | now right].
  - rewrite collapse_step by exact Hc.
    pose proof (rstrip_fixed_tail _ _ H) as Hr.
    apply rstrip_cons_fixed; [now apply IH|].
    destruct (collapse r) eqn:E; [|now left].
    right. apply collapse_nonempty in E. subst r.
    now apply rstrip_fixed_last.
Qed.

Lemma no_match_clean_start (text : string) :
  clean_start text = true -> String.prefix "- -" text = false.
Proof.
  destruct text as [|c r]; [reflexivity|]. intros H.
  rewrite prefix_cons. simpl in H.
  destruct (Ascii.eqb c "-"); [discriminate | reflexivity].
Qed.

Lemma collapse_clean_start (text : string) :
  clean_start text = true -> clean_start (collapse text) = true.
Proof.
  intros H. destruct text as [|c r]; [reflexivity|].
  rewrite collapse_step by now apply no_match_clean_start. exact H.
Qed.

Lemma collapse_bullet_text (text : string) :
  bullet_text text -> bullet_text (collapse text).
Proof.
  intros (H1 & H2 & H3). repeat split.
  - now apply collapse_clean_start.
  - now apply collapse_rstrip.
  - now apply collapse_no_LF.
Qed.

Lemma collapse_marker (text : string) :
  clean_start text = true -> collapse ("- " ++ text) = "- " ++ collapse text.
Proof.
  intros H.
  change ("- " ++ text) with (String "-" (String " " text)).
  rewrite collapse_step.
  - rewrite collapse_step; [reflexivity|]. destruct text; reflexivity.
  - destruct text as [|c r]; [reflexivity|].
    rewrite !prefix_cons. simpl in H.
    destruct (Ascii.eqb c "-"); [discriminate|].
    now rewrite andb_false_r.
Qed.

Lemma bullets_form (summary : string) :
  Forall (fun l => exists text, l = "- " ++ text /\ bullet_text text)
    (bullets summary).
Proof.
  unfold bullets.
  pose proof (cleaned_lines_bullets _ (split_pieces LF summary)) as H.
  induction H as [|l rest (text & -> & Ht) Hrest IH]; simpl; constructor; [|exact IH].
  exists (collapse text). split.
  - apply collapse_marker, Ht.
  - now apply collapse_bullet_text.
Qed.

Lemma clean_summary_join (summary : string) :
  clean_summary summary = Py.join (String LF "") (bullets summary).
Proof. apply collapse_join. Qed.

Lemma bullet_no_LF (l : string) :
  (exists text, l = "- " ++ text /\ bullet_text text) -> has_char LF l = false.
Proof. intros (text & -> & _ & _ & H). exact H. Qed.

Lemma lines_of_clean_summary (summary : string) :
  lines_of (clean_summary summary) = bullets summary.
Proof.
  rewrite clean_summary_join.
  pose proof (bullets_form summary) as H.
  destruct (bullets summary) as [|l rest] eqn:E; [reflexivity|].
  unfold lines_of.
  replace (Py.truthy (Py.join (String LF "") (l :: rest))) with true.
  - apply split_join; [|discriminate].
    eapply Forall_impl; [|exact H]. intros a. apply bullet_no_LF.
  - inversion H as [|? ? (text & -> & _) _]. destruct rest; reflexivity.
Qed.

Lemma bullet_line_form (l : string) :
  (exists text, l = "- " ++ text /\ bullet_text text) ->
  bullet_line l = true /\ blank l = false.
Proof.
  intros (text & -> & Hs & _ & _). split; [exact Hs|].
  unfold blank.
  destruct (strip_nonspace_head "-" (String " " text) eq_refl) as [r Hr].
  simpl in Hr |- *. now rewrite Hr.
Qed.

Lemma clean_line_bullet (text : string) :
  bullet_text text -> clean_line ("- " ++ text) = Some ("- " ++ text).
Proof.
  intros (Hs & Hr & _). destruct text as [|c r]; [reflexivity|].
  simpl in Hs. apply andb_true_iff in Hs. destruct Hs as [Hdash Hspace].
  apply negb_true_iff in Hdash, Hspace.
  change ("- " ++ String c r) with (String "-" (String " " (String c r))).
  assert (Hfix : Py.strip (String "-" (String " " (String c r)))
                 = String "-" (String " " (String c r))).
  { unfold Py.strip.
    rewrite (rstrip_cons_fixed "-" (String " " (String c r)));
      [reflexivity| |now left].
    apply rstrip_cons_fixed; [exact Hr | now left]. }
  unfold clean_line. rewrite Hfix.
  cbn [Py.truthy String.length strip_bullets].
  assert (Hl : Py.lstrip (String " " (String c r)) = String c r).
  { change (Py.lstrip (String " " (String c r))) with (Py.lstrip (String c r)).
    cbn [Py.lstrip]. now rewrite Hspace. }
  assert (Hsp : Ascii.eqb c " " = false).
  { destruct (Ascii.eqb c " ") eqn:E; [|reflexivity].
    apply Ascii.eqb_eq in E. subst c. discriminate. }
  cbn [Py.tail]. rewrite !Hl, !startswith_char, Hdash, Hsp. reflexivity.
Qed.

Lemma cleaned_lines_fixed (lines : list string) :
  Forall (fun l => exists text, l = "- " ++ text /\ bullet_text text) lines ->
  cleaned_lines lines = lines.
Proof.
  induction 1 as [|l rest (text & -> & Ht) Hrest IH]; [reflexivity|].
  cbn [cleaned_lines]. rewrite (clean_line_bullet text Ht). now rewrite IH.
Qed.

Lemma clean_summary_twice (summary : string) :
  clean_summary (clean_summary summary) = collapse (clean_summary summary).
Proof.
  pose proof (lines_of_clean_summary summary) as Hlines.
  pose proof (bullets_form summary) as Hform.
  unfold lines_of in Hlines.
  destruct (Py.truthy (clean_summary summary)) eqn:Ht.
  - unfold clean_summary at 1. fold (collapse).
    rewrite Hlines, (cleaned_lines_fixed _ Hform), <- clean_summary_join.
    reflexivity.
  - destruct (clean_summary summary); [reflexivity | discriminate].
Qed.

Lemma collapse_nothing (text : string) :
  contains text "- -" = false -> collapse text = text.
Proof.
  induction text as [|c r IH]; intros H; [reflexivity|].
  cbn [contains] in H. apply orb_false_iff in H. destruct H as [H1 H2].
  rewrite collapse_step by exact H1. now rewrite IH.
Qed.

End CleanSummary.

(** ** The retry policy: [summarize_note] *)

Section RetryPolicy.

Variable World : Type.
Variables openai watson claude :
  string -> Config -> Z -> World -> outcome string * World.

Lemma try_known (ai : string) (p : provider) (note : string)
    (config : Config) (level : Z) (st : run_state World) :
  provider_of ai = Some p ->
  summarize_note_try World openai watson claude note ai config level st
  = await_adapter p (adapter_of openai watson claude p) note config level st.
Proof.
  unfold provider_of, summarize_note_try.
  destruct (ai =? "openai")%string; [intros [= <-]; reflexivity|].
  destruct (ai =? "watson")%string; [intros [= <-]; reflexivity|].
  destruct (ai =? "claude")%string; [intros [= <-]; reflexivity|].
  discriminate.
Qed.

Lemma try_unknown (ai : string) (note : string)
    (config : Config) (level : Z) (st : run_state World) :
  provider_of ai = None ->
  summarize_note_try World openai watson claude note ai config level st
  = (Return note, st).
Proof.
  unfold provider_of, summarize_note_try.
  destruct (ai =? "openai")%string; [discriminate|].
  destruct (ai =? "watson")%string; [discriminate|].
  destruct (ai =? "claude")%string; [discriminate|].
  reflexivity.
Qed.

Lemma provider_of_unknown (ai : string) :
  ai <> "openai" -> ai <> "watson" -> ai <> "claude" -> provider_of ai = None.
Proof.
  intros H1 H2 H3. unfold provider_of.
  apply String.eqb_neq in H1, H2, H3. now rewrite H1, H2, H3.
Qed.

Lemma try_fails (ai : string) (p : provider) (note : string)
    (config : Config) (level : Z) (st : run_state World) :
  provider_of ai = Some p ->
  fails_on (adapter_of openai watson claude p) note config level ->
  exists e w',
    adapter_of openai watson claude p note config level (world st)
    = (Raise (SummarizationError e), w')
    /\ summarize_note_try World openai watson claude note ai config level st
       = (Raise (SummarizationError e),
          {| world := w';
             events := (events st ++ [Attempt p note level])%list |}).
Proof.
  intros Hp Hfail. destruct (Hfail (world st)) as (e & w' & E).
  exists e, w'. split; [exact E|].
  rewrite (try_known ai p) by exact Hp.
  unfold await_adapter. now rewrite E.
Qed.

(** One turn of the loop, by the way its [try] block ends. *)
Lemma turn_returns (turns : nat) (attempt : Z) (note : string) (n : Z)
    (ai : string) (config : Config) (level : Z) (st st1 : run_state World)
    (summary : string) :
  summarize_note_try World openai watson claude note ai config level st
  = (Return summary, st1) ->
  summarize_note_from World openai watson claude (S turns) attempt
    note n ai config level st
  = (Return (Some summary), st1).
Proof. intros H. cbn [summarize_note_from]. now rewrite H. Qed.

Lemma turn_gives_up (turns : nat) (attempt : Z) (note : string) (n : Z)
    (ai : string) (config : Config) (level : Z) (st st1 : run_state World)
    (e : string) :
  summarize_note_try World openai watson claude note ai config level st
  = (Raise (SummarizationError e), st1) ->
  attempt = max_retries config - 1 ->
  summarize_note_from World openai watson claude (S turns) attempt
    note n ai config level st
  = (Return (Some ("Error in summarization: " ++ e)), st1).
Proof.
  intros H Hlast. cbn [summarize_note_from]. rewrite H.
  now rewrite (proj2 (Z.eqb_eq _ _) Hlast).
Qed.

Lemma turn_retries (turns : nat) (attempt : Z) (note : string) (n : Z)
    (ai : string) (config : Config) (level : Z) (st st1 : run_state World)
    (e : string) :
  summarize_note_try World openai watson claude note ai config level st
  = (Raise (SummarizationError e), st1) ->
  attempt <> max_retries config - 1 ->
  summarize_note_from World openai watson claude (S turns) attempt
    note n ai config level st
  = summarize_note_from World openai watson claude turns (attempt + 1)
      note n ai config level
      {| world := world st1;
         events := (events st1 ++ [Sleep (2 ^ attempt)])%list |}.
Proof.
  intros H Hnot. cbn [summarize_note_from]. rewrite H.
  now rewrite (proj2 (Z.eqb_neq _ _) Hnot).
Qed.

Lemma turn_raises (turns : nat) (attempt : Z) (note : string) (n : Z)
    (ai : string) (config : Config) (level : Z) (st st1 : run_state World)
    (e : string) :
  summarize_note_try World openai watson claude note ai config level st
  = (Raise (Exception e), st1) ->
  summarize_note_from World openai watson claude (S turns) attempt
    note n ai config level st
  = (Raise (Exception e), st1).
Proof. intros H. cbn [summarize_note_from]. now rewrite H. Qed.

Lemma exhaustion (ai : string) (p : provider) (note : string) (n : Z)
    (config : Config) (level : Z) :
  provider_of ai = Some p ->
  fails_on (adapter_of openai watson claude p) note config level ->
  forall (turns : nat) (attempt : Z) (st : run_state World),
    attempt + Z.of_nat turns = max_retries config - 1 ->
    exists e st',
      summarize_note_from World openai watson claude (S turns) attempt
        note n ai config level st
      = (Return (Some ("Error in summarization: " ++ e)), st')
      /\ (exists w w', adapter_of openai watson claude p note config level w
                       = (Raise (SummarizationError e), w'))
      /\ events st'
         = (events st ++ failing_attempts p note level (S turns) attempt)%list.
Proof.
  intros Hp Hfail. induction turns as [|turns IH]; intros attempt st Hlast.
  - destruct (try_fails ai p note config level st Hp Hfail) as (e & w' & Ea & Et).
    exists e. eexists. split; [|split].
    + apply (turn_gives_up _ _ _ _ _ _ _ _ _ _ Et). simpl in Hlast. lia.
    + now exists (world st), w'.
    + reflexivity.
  - destruct (try_fails ai p note config level st Hp Hfail) as (e & w' & Ea & Et).
    rewrite (turn_retries _ _ _ _ _ _ _ _ _ _ Et) by lia.
    destruct (IH (attempt + 1)
                {| world := w';
                   events := ((events st ++ [Attempt p note level])
                              ++ [Sleep (2 ^ attempt)])%list |})
      as (e' & st' & E & Hw & Hev); [lia|].
    exists e', st'. split; [exact E|]. split; [exact Hw|].
    rewrite Hev. cbn [events]. rewrite <- !app_assoc. reflexivity.
Qed.

(** The loop only adds to the events. *)
Lemma events_grow (note : string) (n : Z) (ai : string) (config : Config)
    (level : Z) (turns : nat) :
  forall (attempt : Z) (st : run_state World),
  exists r st' more,
    summarize_note_from World openai watson claude turns attempt
      note n ai config level st = (r, st')
    /\ events st' = (events st ++ more)%list.
Proof.
  induction turns as [|turns IH]; intros attempt st.
  - exists (Return None), st, []. split; [reflexivity | now rewrite app_nil_r].
  - cbn [summarize_note_from].
    assert (Htry : exists r st1 more,
               summarize_note_try World openai watson claude note ai config level st
               = (r, st1) /\ events st1 = (events st ++ more)%list).
    { destruct (provider_of ai) as [p|] eqn:Hp.
      - rewrite (try_known ai p) by exact Hp. unfold await_adapter.
        destruct (adapter_of openai watson claude p note config level (world st))
          as [r w']. do 3 eexists. split; reflexivity.
      - rewrite try_unknown by exact Hp.
        exists (Return note), st, []. split; [reflexivity | now rewrite app_nil_r]. }
    destruct Htry as (r & st1 & more & Et & Hev). rewrite Et.
    destruct r as [summary|[e|e]].
    + do 3 eexists. split; [reflexivity | exact Hev].
    + destruct (attempt =? max_retries config - 1).
      * do 3 eexists. split; [reflexivity | exact Hev].
      * unfold bind, asyncio_sleep.
        destruct (IH (attempt + 1)
                    {| world := world st1;
                       events := (events st1 ++ [Sleep (2 ^ attempt)])%list |})
          as (r' & st' & more' & E & Hev').
        rewrite E. exists r', st'. eexists. split; [reflexivity|].
        rewrite Hev'. cbn [events]. rewrite Hev, <- !app_assoc. reflexivity.
    + do 3 eexists. split; [reflexivity | exact Hev].
Qed.

(** With a known provider, a loop of at least one turn starts with a call
    of its adapter. *)
Lemma first_attempt (ai : string) (p : provider) (note : string) (n : Z)
    (config : Config) (level : Z) (turns : nat) (attempt : Z)
    (st : run_state World) :
  provider_of ai = Some p ->
  exists r st' more,
    summarize_note_from World openai watson claude (S turns) attempt
      note n ai config level st = (r, st')
    /\ events st' = (events st ++ Attempt p note level :: more)%list.
Proof.
  intros Hp. cbn [summarize_note_from].
  rewrite (try_known ai p) by exact Hp. unfold await_adapter.
  destruct (adapter_of openai watson claude p note config level (world st))
    as [[summary|[e|e]] w'].
  - do 3 eexists. split; reflexivity.
  - destruct (attempt =? max_retries config - 1).
    + do 3 eexists. split; reflexivity.
    + unfold bind, asyncio_sleep. cbn [world events].
      destruct (events_grow note n ai config level turns (attempt + 1)
                  {| world := w';
                     events := ((events st ++ [Attempt p note level])
                                ++ [Sleep (2 ^ attempt)])%list |})
        as (r' & st' & more' & E & Hev').
      rewrite E. exists r', st'. eexists. split; [reflexivity|].
      rewrite Hev'. cbn [events]. rewrite <- !app_assoc. reflexivity.
  - do 3 eexists. split; reflexivity.
Qed.

(** With [max_retries = 1] there is one attempt and no sleep. *)
Lemma single_attempt (ai : string) (p : provider) (note : string) (n : Z)
    (config : Config) (level : Z) (st : run_state World) :
  provider_of ai = Some p ->
  max_retries config = 1 ->
  exists r st',
    summarize_note World openai watson claude note n ai config level st = (r, st')
    /\ events st' = (events st ++ [Attempt p note level])%list.
Proof.
  intros Hp Hmax. unfold summarize_note. rewrite Hmax.
  change (Z.to_nat 1) with 1%nat. cbn [summarize_note_from].
  rewrite (try_known ai p) by exact Hp. unfold await_adapter.
  destruct (adapter_of openai watson claude p note config level (world st))
    as [[summary|[e|e]] w'].
  - do 2 eexists. split; reflexivity.
  - rewrite Hmax. change (0 =? 1 - 1) with true. cbn iota.
    do 2 eexists. split; reflexivity.
  - do 2 eexists. split; reflexivity.
Qed.

(** An eligible unit goes through [summarize_note]; the others do not. *)
Lemma summarize_slide_passes (args : Args) (config : Config) (level : Z)
    (n : Z) (note : string) (st : run_state World) :
  sentinel note = true \/ Py.len note < min_characters config ->
  summarize_slide World openai watson claude args config level (n, note) st
  = (Return (n, Some note, if summary_only args then "" else note), st).
Proof.
  intros H. unfold summarize_slide, bind, ret. fold (sentinel note).
  destruct (sentinel note) eqn:Es.
  - destruct (summary_only args); reflexivity.
  - destruct H as [H|H]; [discriminate|].
    apply Z.ltb_lt in H. rewrite H.
    destruct (summary_only args); reflexivity.
Qed.

Lemma summarize_slide_dispatches (args : Args) (config : Config) (level : Z)
    (n : Z) (note : string) (st : run_state World) :
  sentinel note = false -> min_characters config <= Py.len note ->
  summarize_slide World openai watson claude args config level (n, note) st
  = match summarize_note World openai watson claude note n (ai args) config level st with
    | (Return summary, st') =>
        (Return (n, summary, if summary_only args then "" else note), st')
    | (Raise e, st') => (Raise e, st')
    end.
Proof.
  intros Hs Hlen. unfold summarize_slide, bind, ret. fold (sentinel note).
  rewrite Hs. apply Z.ltb_ge in Hlen. rewrite Hlen.
  destruct (summarize_note World openai watson claude note n (ai args) config level st)
    as [[summary|e] st']; [|reflexivity].
  destruct (summary_only args); reflexivity.
Qed.

End RetryPolicy.

(** ** The batch: [main] *)

Section Batch.

Variable World : Type.
Variables openai watson claude :
  string -> Config -> Z -> World -> outcome string * World.
Hypothesis openai_errors : raises_summarization_errors_only openai.
Hypothesis watson_errors : raises_summarization_errors_only watson.
Hypothesis claude_errors : raises_summarization_errors_only claude.

Lemma try_raises_only (note ai : string) (config : Config) (level : Z)
    (st st' : run_state World) (e : exception) :
  summarize_note_try World openai watson claude note ai config level st
  = (Raise e, st') ->
  exists message, e = SummarizationError message.
Proof.
  destruct (provider_of ai) as [p|] eqn:Hp.
  - rewrite (try_known World openai watson claude ai p) by exact Hp.
    unfold await_adapter.
    destruct (adapter_of openai watson claude p note config level (world st))
      as [r w'] eqn:E.
    intros [= -> <-].
    destruct p; simpl in E;
      [eapply openai_errors | eapply watson_errors | eapply claude_errors];
      exact E.
  - rewrite try_unknown by exact Hp. discriminate.
Qed.

Lemma summarize_note_from_returns (note : string) (n : Z) (ai : string)
    (config : Config) (level : Z) (turns : nat) :
  forall (attempt : Z) (st : run_state World),
  exists r st',
    summarize_note_from World openai watson claude turns attempt
      note n ai config level st = (Return r, st').
Proof.
  induction turns as [|turns IH]; intros attempt st.
  - now exists None, st.
  - cbn [summarize_note_from].
    destruct (summarize_note_try World openai watson claude note ai config level st)
      as [[summary|e] st1] eqn:Et.
    + now exists (Some summary), st1.
    + destruct (try_raises_only _ _ _ _ _ _ _ Et) as [message ->].
      destruct (attempt =? max_retries config - 1).
      * now eexists _, st1.
      * unfold bind, asyncio_sleep. apply IH.
Qed.

Lemma summarize_slide_returns (args : Args) (config : Config) (level : Z)
    (unit : Z * string) (st : run_state World) :
  exists out st',
    summarize_slide World openai watson claude args config level unit st
    = (Return out, st')
    /\ slide_index out = fst unit.
Proof.
  destruct unit as [n note].
  destruct (sentinel note) eqn:Es.
  - rewrite summarize_slide_passes by now left. now eexists _, _.
  - destruct (Z.lt_ge_cases (Py.len note) (min_characters config)) as [Hlt|Hge].
    + rewrite summarize_slide_passes by now right. now eexists _, _.
    + rewrite summarize_slide_dispatches by assumption.
      destruct (summarize_note_from_returns note n (ai args) config level
                  (Z.to_nat (max_retries config)) 0 st) as (r & st' & E).
      unfold summarize_note. rewrite E. now eexists _, _.
Qed.

(** The loop ends normally, with one triple for every unit, in the order of
    the units. *)
Lemma summarize_slides_returns (args : Args) (config : Config) (level : Z)
    (notes : list (Z * string)) :
  forall st : run_state World,
  exists outs st',
    summarize_slides World openai watson claude args config level notes st
    = (Return outs, st')
    /\ map slide_index outs = map fst notes
    /\ Forall2 (fun unit out => exists st1 st2,
                  summarize_slide World openai watson claude args config level
                    unit st1 = (Return out, st2)) notes outs.
Proof.
  induction notes as [|unit rest IH]; intros st.
  - exists [], st. repeat split; constructor.
  - cbn [summarize_slides]. unfold bind at 1.
    destruct (summarize_slide_returns args config level unit st)
      as (out & st1 & E1 & Hi).
    rewrite E1. unfold bind at 1.
    destruct (IH st1) as (outs & st2 & E2 & Hmap & Hall).
    rewrite E2. exists (out :: outs), st2. split; [reflexivity|]. split.
    + simpl. now rewrite Hi, Hmap.
    + constructor; [now exists st, st1 | exact Hall].
Qed.

Lemma failing_unit (args : Args) (config : Config) (level : Z) (p : provider)
    (unit : Z * string) (out : Z * option string * string)
    (st st' : run_state World) :
  provider_of (ai args) = Some p ->
  1 <= max_retries config ->
  sentinel (snd unit) = false ->
  min_characters config <= Py.len (snd unit) ->
  fails_on (adapter_of openai watson claude p) (snd unit) config level ->
  summarize_slide World openai watson claude args config level unit st
  = (Return out, st') ->
  exists e, summary_of out = Some ("Error in summarization: " ++ e)
            /\ raised_by (adapter_of openai watson claude p) (snd unit) config level e.
Proof.
  destruct unit as [n note]. cbn [snd]. intros Hp Hmax Hs Hlen Hfail.
  rewrite summarize_slide_dispatches by assumption. unfold summarize_note.
  destruct (Z.to_nat (max_retries config)) as [|turns] eqn:E; [lia|].
  destruct (exhaustion World openai watson claude (ai args) p note n config level
              Hp Hfail turns 0 st) as (e & st1 & E1 & Hraised & _); [lia|].
  rewrite E1. intros [= <- <-]. now exists e.
Qed.

Lemma succeeding_unit (args : Args) (config : Config) (level : Z) (p : provider)
    (unit : Z * string) (out : Z * option string * string)
    (st st' : run_state World) :
  provider_of (ai args) = Some p ->
  1 <= max_retries config ->
  sentinel (snd unit) = false ->
  min_characters config <= Py.len (snd unit) ->
  succeeds_on (adapter_of openai watson claude p) (snd unit) config level ->
  summarize_slide World openai watson claude args config level unit st
  = (Return out, st') ->
  exists summary, summary_of out = Some summary
    /\ returned_by (adapter_of openai watson claude p) (snd unit) config level summary.
Proof.
  destruct unit as [n note]. cbn [snd]. intros Hp Hmax Hs Hlen Hok.
  rewrite summarize_slide_dispatches by assumption. unfold summarize_note.
  destruct (Z.to_nat (max_retries config)) as [|turns] eqn:E; [lia|].
  destruct (Hok (world st)) as (summary & w' & Ea).
  erewrite turn_returns.
  2:{ rewrite (try_known World openai watson claude (ai args) p) by exact Hp.
      unfold await_adapter. rewrite Ea. reflexivity. }
  intros [= <- <-]. exists summary. split; [reflexivity|].
  now exists (world st), w'.
Qed.

Lemma main_summaries_returns (args : Args) (config : Config)
    (notes : list (Z * string)) (st : run_state World) :
  exists outs st',
    main_summaries World openai watson claude args config notes st
    = (Return outs, st')
    /\ map slide_index outs = map fst notes
    /\ forall p, provider_of (ai args) = Some p ->
                 1 <= max_retries config ->
                 extract_only args = false ->
                 Forall2 (isolated (adapter_of openai watson claude p)
                            config (level_of args config)) notes outs.
Proof.
  unfold main_summaries. fold (level_of args config).
  destruct (extract_only args) eqn:Ex; cbn [negb].
  - eexists _, st. split; [reflexivity|]. split; [|discriminate].
    rewrite map_map. apply map_ext. now intros [n note].
  - destruct (summarize_slides_returns args config (level_of args config) notes st)
      as (outs & st' & E & Hmap & Hall).
    exists outs, st'. split; [exact E|]. split; [exact Hmap|].
    intros p Hp Hmax _. eapply Forall2_impl; [|exact Hall].
    intros unit out (st1 & st2 & Eu) Hs Hlen. split; intros H.
    + now apply (failing_unit args config _ p unit out st1 st2).
    + now apply (succeeding_unit args config _ p unit out st1 st2).
Qed.

End Batch.

(** ** The adapters of summarizers.py *)

Section RealAdapters.

Variable World : Type.
Variable anthropic_messages_create :
  Config -> string -> World -> reply * World.
Variable openai_chat_completions_create :
  Config -> string -> World -> reply * World.
Variable watson_analyze :
  Config -> string -> Z -> World -> watson_reply * World.

Lemma retry_raises_only (target : World -> outcome string * World) :
  (forall w e w', target w = (Raise e, w') ->
                  exists message, e = SummarizationError message) ->
  forall (more : nat) (w : World) (e : exception) (w' : World),
    retry more target w = (Raise e, w') ->
    exists message, e = SummarizationError message.
Proof.
  intros Ht. induction more as [|more IH]; intros w e w'; cbn [retry];
    destruct (target w) as [[s|e1] w1] eqn:E; try discriminate.
  - intros [= <- <-]. exact (Ht _ _ _ E).
  - apply IH.
Qed.

Lemma retry_fails (target : World -> outcome string * World) :
  (forall w, exists e w', target w = (Raise (SummarizationError e), w')) ->
  forall (more : nat) (w : World),
  exists e w', retry more target w = (Raise (SummarizationError e), w').
Proof.
  intros Ht. induction more as [|more IH]; intros w; cbn [retry];
    destruct (Ht w) as (e & w1 & E); rewrite E.
  - now exists e, w1.
  - apply IH.
Qed.

(** When the vendor call of Claude always raises, so does the adapter,
    after the ten tries of its decorator. *)
Lemma claude_fails_with_vendor :
  (forall config request w, exists m w',
      anthropic_messages_create config request w = (Raised m, w')) ->
  always_fails (summarize_with_claude World anthropic_messages_create).
Proof.
  intros Hv note config level. unfold fails_on, summarize_with_claude, on_exception.
  apply retry_fails. intros w. unfold summarize_with_claude_undecorated.
  destruct (Hv config (prompt level note) w) as (m & w' & E). rewrite E.
  now eexists _, w'.
Qed.

Lemma claude_raises_only :
  raises_summarization_errors_only
    (summarize_with_claude World anthropic_messages_create).
Proof.
  intros note config level. unfold summarize_with_claude, on_exception.
  apply retry_raises_only. intros w e w'.
  unfold summarize_with_claude_undecorated.
  destruct (anthropic_messages_create config (prompt level note) w) as [[t|m] w1];
    [discriminate|].
  intros [= <- <-]. eauto.
Qed.

Lemma openai_raises_only :
  raises_summarization_errors_only
    (summarize_with_openai World openai_chat_completions_create).
Proof.
  intros note config level. unfold summarize_with_openai, on_exception.
  apply retry_raises_only. intros w e w'.
  unfold summarize_with_openai_undecorated.
  destruct (openai_chat_completions_create config (prompt level note) w)
    as [[t|m] w1]; [discriminate|].
  intros [= <- <-]. eauto.
Qed.

Lemma watson_raises_only :
  raises_summarization_errors_only
    (summarize_with_watson World watson_analyze).
Proof.
  intros note config level. unfold summarize_with_watson, on_exception.
  apply retry_raises_only. intros w e w'.
  unfold summarize_with_watson_undecorated.
  destruct (watson_analyze config note level w) as [[[t|]|m] w1];
    [discriminate | |]; intros [= <- <-]; eauto.
Qed.

(** What Watson's adapter returns when the vendor answers with a text. *)
Lemma watson_returns (note : string) (config : Config) (level : Z)
    (w w' : World) (summary : string) :
  watson_analyze config note level w = (WatsonResult (Some summary), w') ->
  summarize_with_watson World watson_analyze note config level w
  = (Return (Py.join (String LF "") (bullet_points (Py.split "." summary))), w').
Proof.
  intros H. unfold summarize_with_watson, on_exception. cbn [Nat.pred retry].
  unfold summarize_with_watson_undecorated. now rewrite H.
Qed.

(** The adapters of OpenAI and Claude return cleaned text. *)
Lemma claude_returns (note : string) (config : Config) (level : Z)
    (w w' : World) (summary : string) :
  anthropic_messages_create config (prompt level note) w = (Returned summary, w') ->
  summarize_with_claude World anthropic_messages_create note config level w
  = (Return (clean_summary summary), w').
Proof.
  intros H. unfold summarize_with_claude, on_exception. cbn [Nat.pred retry].
  unfold summarize_with_claude_undecorated. now rewrite H.
Qed.

Lemma openai_returns (note : string) (config : Config) (level : Z)
    (w w' : World) (content : string) :
  openai_chat_completions_create config (prompt level note) w
  = (Returned content, w') ->
  summarize_with_openai World openai_chat_completions_create note config level w
  = (Return (clean_summary (Py.strip content)), w').
Proof.
  intros H. unfold summarize_with_openai, on_exception. cbn [Nat.pred retry].
  unfold summarize_with_openai_undecorated. now rewrite H.
Qed.

End RealAdapters.

(** ** The indices of the extracted notes *)

Section Indices.

Lemma extract_indices (slides : list slide) :
  forall i, map fst (extract_from i slides) = indices_from i (List.length slides).
Proof.
  induction slides as [|s rest IH]; intros i; [reflexivity|].
  cbn [extract_from map List.length indices_from]. rewrite IH.
  destruct s; reflexivity.
Qed.

Lemma indices_from_above (n : nat) :
  forall i x, In x (indices_from i n) -> i < x.
Proof.
  induction n as [|n IH]; intros i x; [intros []|].
  cbn [indices_from]. intros [<-|H]; [lia|].
  apply IH in H. lia.
Qed.

Lemma indices_from_sorted (n : nat) :
  forall i, StronglySorted Z.lt (indices_from i n).
Proof.
  induction n as [|n IH]; intros i; [constructor|].
  cbn [indices_from]. constructor; [apply IH|].
  apply Forall_forall. intros x. apply indices_from_above.
Qed.

Lemma indices_from_nodup (n : nat) :
  forall i, NoDup (indices_from i n).
Proof.
  induction n as [|n IH]; intros i; [constructor|].
  cbn [indices_from]. constructor; [|apply IH].
  intros H. apply indices_from_above in H. lia.
Qed.

End Indices.

(** ** The outcome of every unit of a run *)

Section UnitOutcomes.

Variable World : Type.
Variables openai watson claude :
  string -> Config -> Z -> World -> outcome string * World.
Hypothesis openai_errors : raises_summarization_errors_only openai.
Hypothesis watson_errors : raises_summarization_errors_only watson.
Hypothesis claude_errors : raises_summarization_errors_only claude.

Lemma adapter_of_errors (p : provider) :
  raises_summarization_errors_only (adapter_of openai watson claude p).
Proof. destruct p; assumption. Qed.

Lemma unit_calls_not_nil (p : provider) (note : string) (config : Config)
    (level : Z) (turns : nat) (w : World) :
  fst (unit_calls (adapter_of openai watson claude p) note config level
         (S turns) w) <> [].
Proof.
  cbn [unit_calls].
  destruct (adapter_of openai watson claude p note config level w)
    as [[s|[e|e]] w1]; try discriminate.
  destruct (unit_calls (adapter_of openai watson claude p) note config level turns w1).
  discriminate.
Qed.

Lemma verdict_later (call : outcome string) (later : list (outcome string)) :
  later <> [] -> verdict (call :: later) = verdict later.
Proof. destruct later; [congruence | reflexivity]. Qed.

Lemma verdict_of_last (calls : list (outcome string)) (d : outcome string) :
  calls <> [] ->
  verdict calls
  = match last calls d with
    | Return summary => Some summary
    | Raise (SummarizationError e) => Some ("Error in summarization: " ++ e)
    | Raise (Exception _) => None
    end.
Proof.
  induction calls as [|call later IH]; [congruence|]. intros _.
  destruct later as [|call2 later]; [reflexivity|].
  rewrite verdict_later by discriminate.
  change (last (call :: call2 :: later) d) with (last (call2 :: later) d).
  apply IH. discriminate.
Qed.

Lemma try_outcome (ai : string) (p : provider) (note : string)
    (config : Config) (level : Z) (st : run_state World)
    (r : outcome string) (w1 : World) :
  provider_of ai = Some p ->
  adapter_of openai watson claude p note config level (world st) = (r, w1) ->
  summarize_note_try World openai watson claude note ai config level st
  = (r, {| world := w1; events := (events st ++ [Attempt p note level])%list |}).
Proof.
  intros Hp H. rewrite (try_known World openai watson claude ai p) by exact Hp.
  unfold await_adapter. now rewrite H.
Qed.

(** The loop of [summarize_note] returns the verdict of the calls made for
    the note, and leaves the world as they left it. *)
Lemma loop_verdict (ai : string) (p : provider) (note : string) (n : Z)
    (config : Config) (level : Z) :
  provider_of ai = Some p ->
  forall (turns : nat) (attempt : Z) (st : run_state World),
    ((0 < turns)%nat -> attempt + Z.of_nat turns = max_retries config) ->
    exists st',
      summarize_note_from World openai watson claude turns attempt
        note n ai config level st
      = (Return (verdict (fst (unit_calls (adapter_of openai watson claude p)
                                 note config level turns (world st)))), st')
      /\ world st'
         = snd (unit_calls (adapter_of openai watson claude p)
                  note config level turns (world st)).
Proof.
  intros Hp. induction turns as [|turns IH]; intros attempt st Hmax.
  - exists st. split; reflexivity.
  - pose proof (unit_calls_not_nil p note config level) as Hne.
    cbn [unit_calls].
    destruct (adapter_of openai watson claude p note config level (world st))
      as [[s|[e|e]] w1] eqn:Ea;
      pose proof (try_outcome ai p note config level st _ w1 Hp Ea) as Et.
    + rewrite (turn_returns _ _ _ _ _ _ _ _ _ _ _ _ _ _ Et).
      eexists. split; reflexivity.
    + destruct turns as [|turns].
      * rewrite (turn_gives_up _ _ _ _ _ _ _ _ _ _ _ _ _ _ Et) by lia.
        eexists. split; reflexivity.
      * rewrite (turn_retries _ _ _ _ _ _ _ _ _ _ _ _ _ _ Et) by lia.
        destruct (IH (attempt + 1)
                    {| world := w1;
                       events := ((events st ++ [Attempt p note level])
                                  ++ [Sleep (2 ^ attempt)])%list |})
          as (st' & E & Hw); [lia|].
        cbn [world events] in E, Hw |- *. rewrite E. exists st'.
        specialize (Hne turns w1).
        destruct (unit_calls (adapter_of openai watson claude p) note config level
                    (S turns) w1) as [calls w2].
        cbn [fst snd] in Hne, Hw |- *.
        rewrite (verdict_later _ _ Hne). split; [reflexivity | exact Hw].
    + destruct (adapter_of_errors p _ _ _ _ _ _ Ea) as [m Hm]. discriminate.
Qed.

Lemma slide_outcome (args : Args) (config : Config) (level : Z) (p : provider)
    (unit : Z * string) (st : run_state World) :
  provider_of (ai args) = Some p ->
  exists out st',
    summarize_slide World openai watson claude args config level unit st
    = (Return out, st')
    /\ unit_outcome (adapter_of openai watson claude p) config level unit st out st'.
Proof.
  intros Hp. destruct unit as [n note]. unfold unit_outcome. cbn [fst snd].
  unfold eligible. destruct (sentinel note) eqn:Es; cbn [negb andb].
  - rewrite summarize_slide_passes by now left.
    do 2 eexists. split; [reflexivity|]. repeat split.
  - destruct (Py.len note <? min_characters config) eqn:El; cbn [negb].
    + apply Z.ltb_lt in El. rewrite summarize_slide_passes by now right.
      do 2 eexists. split; [reflexivity|]. repeat split.
    + apply Z.ltb_ge in El. rewrite summarize_slide_dispatches by assumption.
      unfold summarize_note.
      destruct (loop_verdict (ai args) p note n config level Hp
                  (Z.to_nat (max_retries config)) 0 st) as (st' & E & Hw).
      { lia. }
      rewrite E. do 2 eexists. split; [reflexivity|].
      split; [reflexivity|]. split; [reflexivity | exact Hw].
Qed.

Lemma slides_outcome (args : Args) (config : Config) (level : Z) (p : provider)
    (notes : list (Z * string)) :
  provider_of (ai args) = Some p ->
  forall st : run_state World,
  exists outs st',
    summarize_slides World openai watson claude args config level notes st
    = (Return outs, st')
    /\ batch_run (unit_outcome (adapter_of openai watson claude p) config level)
         notes st outs st'.
Proof.
  intros Hp. induction notes as [|unit rest IH]; intros st.
  - exists [], st. split; [reflexivity | constructor].
  - cbn [summarize_slides]. unfold bind at 1.
    destruct (slide_outcome args config level p unit st Hp)
      as (out & st1 & E1 & H1).
    rewrite E1. unfold bind at 1.
    destruct (IH st1) as (outs & st' & E2 & H2).
    rewrite E2. exists (out :: outs), st'. split; [reflexivity|].
    now apply (batch_step _ unit rest st st1 st').
Qed.

End UnitOutcomes.

(** ** The lines [clean_summary] keeps *)

Section KeptLines.






End KeptLines.

(** * The properties of the specification *)

(** ** Order of the outcomes *)

(** C1: whatever the vendors answer, the triples of [summaries] carry the
    indices of the units they come from, one triple for each unit and in
    the order of the units; for the notes of a presentation of [N] slides
    these are the indices [1, 2, ..., N], in ascending order, without a
    gap and without a repetition. *)
Theorem order_preservation (World : Type)
    (anthropic_messages_create openai_chat_completions_create :
       Config -> string -> World -> reply * World)
    (watson_analyze : Config -> string -> Z -> World -> watson_reply * World)
    (args : Args) (config : Config) :
  (forall (notes : list (Z * string)) (st : run_state World),
     exists outs st',
       main_summaries World
         (summarize_with_openai World openai_chat_completions_create)
         (summarize_with_watson World watson_analyze)
         (summarize_with_claude World anthropic_messages_create)
         args config notes st = (Return outs, st')
       /\ map slide_index outs = map fst notes)
  /\ (forall (slides : list slide) (st : run_state World),
        exists outs st',
          main World anthropic_messages_create openai_chat_completions_create
            watson_analyze args config slides st = (Return outs, st')
          /\ map slide_index outs = indices_from 0 (List.length slides)
          /\ StronglySorted Z.lt (map slide_index outs)
          /\ NoDup (map slide_index outs)).
Proof.
  assert (H : forall notes st,
             exists outs st',
               main_summaries World
                 (summarize_with_openai World openai_chat_completions_create)
                 (summarize_with_watson World watson_analyze)
                 (summarize_with_claude World anthropic_messages_create)
                 args config notes st = (Return outs, st')
               /\ map slide_index outs = map fst notes).
  { intros notes st.
    destruct (main_summaries_returns World _ _ _
                (openai_raises_only World openai_chat_completions_create)
                (watson_raises_only World watson_analyze)
                (claude_raises_only World anthropic_messages_create)
                args config notes st) as (outs & st' & E & Hmap & _).
    now exists outs, st'. }
  split; [exact H|]. intros slides st. unfold main.
  destruct (H (extract_notes_from_presentation slides) st) as (outs & st' & E & Hmap).
  exists outs, st'. split; [exact E|].
  unfold extract_notes_from_presentation in Hmap.
  rewrite extract_indices in Hmap. rewrite Hmap.
  split; [reflexivity|]. split; [apply indices_from_sorted | apply indices_from_nodup].
Qed.

(** ** Exhausted retries *)

(** C2: with a provider operation that always fails with a
    [SummarizationError] and [max_retries = 3], [summarize_note] returns
    the error text of a failed outcome after exactly three attempts, with a
    sleep of 1 after the first and of 2 after the second, and none after
    the third.  The error text carries a message the operation raised. *)
Theorem retry_exhaustion (World : Type)
    (openai watson claude : string -> Config -> Z -> World -> outcome string * World)
    (ai : string) (p : provider) (note : string) (slide_number : Z)
    (config : Config) (level : Z) (st : run_state World) :
  provider_of ai = Some p ->
  always_fails (adapter_of openai watson claude p) ->
  max_retries config = 3 ->
  exists e st',
    summarize_note World openai watson claude note slide_number ai config level st
    = (Return (Some ("Error in summarization: " ++ e)), st')
    /\ (exists w w', adapter_of openai watson claude p note config level w
                     = (Raise (SummarizationError e), w'))
    /\ events st'
       = (events st ++ [Attempt p note level; Sleep 1;
                        Attempt p note level; Sleep 2;
                        Attempt p note level])%list.
Proof.
  intros Hp Hfail Hmax. unfold summarize_note. rewrite Hmax.
  change (Z.to_nat 3) with 3%nat.
  apply (exhaustion World openai watson claude ai p note slide_number config level
           Hp (Hfail note config level) 2%nat 0 st).
  rewrite Hmax. reflexivity.
Qed.

Lemma retry_exhaustion_witness :
  exists e st',
    summarize_note nat
      (summarize_with_openai nat vendor_down)
      (summarize_with_watson nat watson_down)
      (summarize_with_claude nat vendor_down)
      "Long speaker notes." 4 "claude" (sample_config 3 10) 5 start
    = (Return (Some ("Error in summarization: " ++ e)), st')
    /\ (exists w w',
          summarize_with_claude nat vendor_down
            "Long speaker notes." (sample_config 3 10) 5 w
          = (Raise (SummarizationError e), w'))
    /\ events st'
       = (events start ++ [Attempt Claude "Long speaker notes." 5; Sleep 1;
                           Attempt Claude "Long speaker notes." 5; Sleep 2;
                           Attempt Claude "Long speaker notes." 5])%list.
Proof.
  apply (retry_exhaustion nat
           (summarize_with_openai nat vendor_down)
           (summarize_with_watson nat watson_down)
           (summarize_with_claude nat vendor_down)
           "claude" Claude).
  - reflexivity.
  - apply claude_fails_with_vendor. intros config request w.
    exists "connection refused", (S w). reflexivity.
  - reflexivity.
Defined.

(** The same run, evaluated: the three attempts of [summarize_note] stand
    for thirty calls of the vendor, ten for each call of the decorated
    adapter. *)
Example three_attempts_thirty_vendor_calls :
  summarize_note nat
    (summarize_with_openai nat vendor_down)
    (summarize_with_watson nat watson_down)
    (summarize_with_claude nat vendor_down)
    "Long speaker notes." 4 "claude" (sample_config 3 10) 5 start
  = (Return (Some ("Error in summarization: Claude summarization failed: "
                   ++ "connection refused")),
     {| world := 30%nat;
        events := [Attempt Claude "Long speaker notes." 5; Sleep 1;
                   Attempt Claude "Long speaker notes." 5; Sleep 2;
                   Attempt Claude "Long speaker notes." 5] |}).
Proof. vm_compute. reflexivity. Qed.

(** ** Failures stay with their unit *)

(** C3: whatever the vendors answer, the loop ends normally with one triple
    for every unit of the batch: no error of a unit ends the batch.  With a
    known provider, every unit is handled from the state the unit before it
    left, and an eligible unit gets the verdict of the calls made for it in
    that run: whenever the last of them raised a [SummarizationError], the
    summary of the unit is the error text with the message of that error.
    In particular a unit whose provider calls all fail has an error text
    for a summary and a unit whose provider calls all succeed has a summary
    they returned, whatever happens to the other units. *)
Theorem failure_isolation (World : Type)
    (anthropic_messages_create openai_chat_completions_create :
       Config -> string -> World -> reply * World)
    (watson_analyze : Config -> string -> Z -> World -> watson_reply * World)
    (args : Args) (config : Config)
    (notes : list (Z * string)) (st : run_state World) :
  exists outs st',
    main_summaries World
      (summarize_with_openai World openai_chat_completions_create)
      (summarize_with_watson World watson_analyze)
      (summarize_with_claude World anthropic_messages_create)
      args config notes st = (Return outs, st')
    /\ map slide_index outs = map fst notes
    /\ (forall p, provider_of (ai args) = Some p ->
                  extract_only args = false ->
                  batch_run
                    (unit_outcome
                       (adapter_of
                          (summarize_with_openai World openai_chat_completions_create)
                          (summarize_with_watson World watson_analyze)
                          (summarize_with_claude World anthropic_messages_create) p)
                       config (level_of args config))
                    notes st outs st')
    /\ (forall (calls : list (outcome string)) (d : outcome string) (e : string),
          calls <> [] ->
          last calls d = Raise (SummarizationError e) ->
          verdict calls = Some ("Error in summarization: " ++ e))
    /\ forall p, provider_of (ai args) = Some p ->
                 1 <= max_retries config ->
                 extract_only args = false ->
                 Forall2
                   (isolated
                      (adapter_of
                         (summarize_with_openai World openai_chat_completions_create)
                         (summarize_with_watson World watson_analyze)
                         (summarize_with_claude World anthropic_messages_create) p)
                      config (level_of args config))
                   notes outs.
Proof.
  pose proof (openai_raises_only World openai_chat_completions_create) as Ho.
  pose proof (watson_raises_only World watson_analyze) as Hw.
  pose proof (claude_raises_only World anthropic_messages_create) as Hc.
  destruct (main_summaries_returns World _ _ _ Ho Hw Hc args config notes st)
    as (outs & st' & E & Hmap & Hiso).
  exists outs, st'. split; [exact E|]. split; [exact Hmap|].
  split; [|split; [|exact Hiso]].
  - intros p Hp Hex. unfold main_summaries in E. fold (level_of args config) in E.
    rewrite Hex in E. cbn [negb] in E.
    destruct (slides_outcome World _ _ _ Ho Hw Hc args config (level_of args config)
                p notes Hp st) as (outs2 & st2 & E2 & Hrun).
    rewrite E in E2. injection E2 as <- <-. exact Hrun.
  - intros calls d e Hne Hlast.
    rewrite (verdict_of_last calls d Hne), Hlast. reflexivity.
Qed.

Lemma failure_isolation_witness :
  exists outs st',
    main_summaries nat
      (summarize_with_openai nat vendor_up)
      (summarize_with_watson nat watson_picky)
      (summarize_with_claude nat vendor_up)
      (sample_args "watson" false) (sample_config 2 10)
      (extract_notes_from_presentation sample_slides) start = (Return outs, st')
    /\ map slide_index outs = map fst (extract_notes_from_presentation sample_slides)
    /\ batch_run
         (unit_outcome (summarize_with_watson nat watson_picky) (sample_config 2 10) 5)
         (extract_notes_from_presentation sample_slides) start outs st'
    /\ Forall2
         (isolated (summarize_with_watson nat watson_picky) (sample_config 2 10) 5)
         (extract_notes_from_presentation sample_slides) outs.
Proof.
  destruct (failure_isolation nat vendor_up vendor_up watson_picky
              (sample_args "watson" false) (sample_config 2 10)
              (extract_notes_from_presentation sample_slides) start)
    as (outs & st' & E & Hmap & Hrun & _ & H).
  exists outs, st'. split; [exact E|]. split; [exact Hmap|]. split.
  - apply (Hrun Watson); reflexivity.
  - apply (H Watson); [reflexivity | simpl; lia | reflexivity].
Defined.

(** The batch of the specification: five units, the provider calls of the
    third always fail and those of the others succeed. *)
Example five_units :
  fst (main nat vendor_up vendor_up watson_picky
         (sample_args "watson" true) (sample_config 2 10) sample_slides start)
  = Return
      [ (1, Some ("- One" ++ String LF "- Two"), "");
        (2, Some ("- One" ++ String LF "- Two"), "");
        (3, Some ("Error in summarization: Watson summarization failed: "
                  ++ "Watson client initialization failed: timeout"), "");
        (4, Some ("- One" ++ String LF "- Two"), "");
        (5, Some ("- One" ++ String LF "- Two"), "") ].
Proof. vm_compute. reflexivity. Qed.

(** ** The bullets of a cleaned summary *)

(** The example of the specification: a doubled marker and a plain line. *)
Example clean_summary_example :
  clean_summary ("- - already bulleted" ++ String LF ("plain line" ++ String LF ""))
  = "- already bulleted" ++ String LF "- plain line".
Proof. reflexivity. Qed.



(** A text with a line of dashes between two lines of words: the line of
    dashes stays, as a bare marker. *)
Example clean_summary_keeps_line_of_dashes :
  lines_of (clean_summary ("one" ++ String LF ("---" ++ String LF "two")))
  = ["- one"; "- "; "- two"].
Proof. reflexivity. Qed.

(** ** Cleaning twice *)

(** C5, at a failing input: [clean_summary] is not idempotent.  The last
    step, which is there to replace the double hyphens that remain, goes
    over the text once and without overlap, so cleaning ["a - - - b"]
    leaves ["- a - - b"], which still holds ["- -"]; a second cleaning
    turns it into ["- a - b"]. *)
Theorem clean_summary_not_idempotent :
  clean_summary "a - - - b" = "- a - - b"
  /\ contains (clean_summary "a - - - b") "- -" = true
  /\ clean_summary (clean_summary "a - - - b") = "- a - b"
  /\ clean_summary (clean_summary "a - - - b") <> clean_summary "a - - - b".
Proof.
  split; [reflexivity|]. split; [reflexivity|]. split; [reflexivity|].
  vm_compute. discriminate.
Qed.

(** When a cleaned text holds no ["- -"] any more, a second cleaning gives
    that text back. *)
Lemma clean_summary_idempotent_without_residue (summary : string) :
  contains (clean_summary summary) "- -" = false ->
  clean_summary (clean_summary summary) = clean_summary summary.
Proof.
  intros H. rewrite clean_summary_twice. now apply collapse_nothing.
Qed.

Lemma clean_summary_idempotent_witness :
  contains (clean_summary ("- - already bulleted" ++ String LF "plain line")) "- -"
  = false
  /\ clean_summary (clean_summary ("- - already bulleted" ++ String LF "plain line"))
     = clean_summary ("- - already bulleted" ++ String LF "plain line").
Proof.
  split; [reflexivity|].
  apply clean_summary_idempotent_without_residue. reflexivity.
Defined.

(** ** The summary of Watson *)

(** C6, at a failing input: when Watson answers with the already bulleted
    text ["- First. - Second."], [summarize_with_watson] returns one bullet
    for each sentence and stops there; [clean_summary], which the adapters
    of OpenAI and Claude apply, is not applied, and the doubled markers it
    would remove stay in the summary. *)
Theorem watson_summary_is_not_cleaned (World : Type)
    (watson_analyze : Config -> string -> Z -> World -> watson_reply * World)
    (note : string) (config : Config) (level : Z) (w w' : World) :
  watson_analyze config note level w
  = (WatsonResult (Some "- First. - Second."), w') ->
  exists summary,
    summarize_with_watson World watson_analyze note config level w
    = (Return summary, w')
    /\ summary = "- - First" ++ String LF "- - Second"
    /\ clean_summary summary = "- First" ++ String LF "- Second"
    /\ clean_summary summary <> summary
    /\ forallb bullet_line (lines_of summary) = false.
Proof.
  intros H. eexists. split; [apply (watson_returns World watson_analyze), H|].
  repeat split. vm_compute. discriminate.
Qed.

Lemma watson_summary_is_not_cleaned_witness :
  exists summary,
    summarize_with_watson unit watson_bulleted
      "Some long speaker notes." (sample_config 3 10) 5 tt
    = (Return summary, tt)
    /\ summary = "- - First" ++ String LF "- - Second"
    /\ clean_summary summary = "- First" ++ String LF "- Second"
    /\ clean_summary summary <> summary
    /\ forallb bullet_line (lines_of summary) = false.
Proof.
  apply (watson_summary_is_not_cleaned unit watson_bulleted). reflexivity.
Defined.

(** ** Sentinel notes *)

(** C7, as stated, fails: for the sentinel text the triple appended to
    [summaries] has the sentinel itself for a summary, which a writer prints
    under a "Summary" heading; the summary is not omitted. *)
Lemma sentinel_summary_not_omitted :
  summarize_slide nat adapter_up adapter_up adapter_up
    (sample_args "openai" false) (sample_config 3 10) 5
    (1, "No notes found.") start
  = (Return (1, Some "No notes found.", "No notes found."), start)
  /\ summary_omitted (1, Some "No notes found.", "No notes found.") = false
  /\ write_summary_to_txt [(1, Some "No notes found.", "No notes found.")] false
     = "Presentation Notes" ++ String LF (String LF
         ("Slide 1" ++ String LF
            ("Summary:" ++ String LF ("No notes found." ++ String LF (String LF
               ("Notes:" ++ String LF ("No notes found." ++ String LF (String LF ""))))))))
  .
Proof. repeat split. Qed.

(** C7, amended: for a unit whose text is one of the sentinel strings, the
    loop makes no provider call (the state of the run is left as it was)
    and the outcome is a pass-through whose summary is the sentinel text
    itself. *)
Theorem sentinel_passes_through (World : Type)
    (openai watson claude : string -> Config -> Z -> World -> outcome string * World)
    (args : Args) (config : Config) (level : Z) (slide_number : Z)
    (note : string) (st : run_state World) :
  note = "No notes found." \/ note = "No notes slide." ->
  summarize_slide World openai watson claude args config level
    (slide_number, note) st
  = (Return (slide_number, Some note, if summary_only args then "" else note), st).
Proof.
  intros H. apply summarize_slide_passes. left.
  destruct H as [-> | ->]; reflexivity.
Qed.

Lemma sentinel_passes_through_witness :
  summarize_slide nat adapter_up adapter_up adapter_up
    (sample_args "claude" false) (sample_config 3 10) 5
    (7, "No notes slide.") start
  = (Return (7, Some "No notes slide.", "No notes slide."), start).
Proof.
  apply (sentinel_passes_through nat adapter_up adapter_up adapter_up
           (sample_args "claude" false)).
  right. reflexivity.
Defined.

(** ** The threshold of [min_characters] *)

(** C8: for a unit that is not a sentinel, a text of [min_characters - 1]
    characters is passed through without a provider call, and a text of
    [min_characters] characters goes to [summarize_note], which, for a
    known provider and [max_retries] at least 1, starts with a call of the
    adapter of that provider. *)
Theorem threshold_boundary (World : Type)
    (openai watson claude : string -> Config -> Z -> World -> outcome string * World)
    (args : Args) (config : Config) (level : Z) (slide_number : Z)
    (note : string) (st : run_state World) :
  sentinel note = false ->
  (Py.len note = min_characters config - 1 ->
   summarize_slide World openai watson claude args config level
     (slide_number, note) st
   = (Return (slide_number, Some note, if summary_only args then "" else note), st))
  /\ (Py.len note = min_characters config ->
      summarize_slide World openai watson claude args config level
        (slide_number, note) st
      = match summarize_note World openai watson claude note slide_number
                (ai args) config level st with
        | (Return summary, st') =>
            (Return (slide_number, summary,
                     if summary_only args then "" else note), st')
        | (Raise e, st') => (Raise e, st')
        end
      /\ forall p, provider_of (ai args) = Some p -> 1 <= max_retries config ->
         exists r st' more,
           summarize_slide World openai watson claude args config level
             (slide_number, note) st = (r, st')
           /\ events st' = (events st ++ Attempt p note level :: more)%list).
Proof.
  intros Hs. split; intros Hlen.
  - apply summarize_slide_passes. right. lia.
  - assert (Hd := summarize_slide_dispatches World openai watson claude
                    args config level slide_number note st Hs ltac:(lia)).
    split; [exact Hd|]. intros p Hp Hmax. rewrite Hd. unfold summarize_note.
    destruct (Z.to_nat (max_retries config)) as [|turns] eqn:E; [lia|].
    destruct (first_attempt World openai watson claude (ai args) p note
                slide_number config level turns 0 st Hp)
      as (r & st' & more & Er & Hev).
    rewrite Er. destruct r as [summary|e]; do 3 eexists; split; try reflexivity; exact Hev.
Qed.

Lemma threshold_boundary_witness :
  (summarize_slide nat adapter_up adapter_down adapter_down
     (sample_args "openai" false) (sample_config 3 10) 5 (2, "123456789") start
   = (Return (2, Some "123456789", "123456789"), start))
  /\ (summarize_slide nat adapter_up adapter_down adapter_down
        (sample_args "openai" false) (sample_config 3 10) 5 (3, "1234567890") start
      = (Return (3, Some "- done", "1234567890"),
         {| world := 1%nat; events := [Attempt OpenAI "1234567890" 5] |})).
Proof.
  split.
  - apply (threshold_boundary nat adapter_up adapter_down adapter_down
             (sample_args "openai" false) (sample_config 3 10) 5 2 "123456789" start);
      reflexivity.
  - refine (eq_trans
              (proj1 (proj2 (threshold_boundary nat adapter_up adapter_down adapter_down
                               (sample_args "openai" false) (sample_config 3 10) 5 3
                               "1234567890" start eq_refl) eq_refl)) _).
    reflexivity.
Defined.

(** ** No retry at all *)

(** C9, on the code: with [max_retries = 1] there is exactly one attempt
    and no sleep; with [max_retries = 0] the loop of [summarize_note] has
    no turn, so the provider operation is not attempted at all and the
    function ends without a [return], with [None] for a summary. *)
Theorem attempts_with_one_and_zero_retries (World : Type)
    (openai watson claude : string -> Config -> Z -> World -> outcome string * World)
    (note : string) (slide_number : Z) (ai : string) (p : provider)
    (config : Config) (level : Z) (st : run_state World) :
  provider_of ai = Some p ->
  (max_retries config = 1 ->
   exists r st',
     summarize_note World openai watson claude note slide_number ai config level st
     = (r, st')
     /\ events st' = (events st ++ [Attempt p note level])%list)
  /\ (max_retries config = 0 ->
      summarize_note World openai watson claude note slide_number ai config level st
      = (Return None, st)).
Proof.
  intros Hp. split; intros Hmax.
  - now apply single_attempt.
  - unfold summarize_note. now rewrite Hmax.
Qed.

Lemma attempts_with_one_and_zero_retries_witness :
  (exists r st',
     summarize_note nat adapter_down adapter_down adapter_down
       "Long speaker notes." 4 "openai" (sample_config 1 10) 5 start = (r, st')
     /\ events st' = (events start ++ [Attempt OpenAI "Long speaker notes." 5])%list)
  /\ summarize_note nat adapter_down adapter_down adapter_down
       "Long speaker notes." 4 "openai" (sample_config 0 10) 5 start
     = (Return None, start).
Proof.
  split.
  - apply (attempts_with_one_and_zero_retries nat adapter_down adapter_down
             adapter_down "Long speaker notes." 4 "openai" OpenAI
             (sample_config 1 10) 5 start); reflexivity.
  - apply (attempts_with_one_and_zero_retries nat adapter_down adapter_down
             adapter_down "Long speaker notes." 4 "openai" OpenAI
             (sample_config 0 10) 5 start); reflexivity.
Defined.

(** ** Unknown providers *)

(** C10: for a provider name that is none of ["openai"], ["watson"] and
    ["claude"], and [max_retries] at least 1, [summarize_note] returns the
    note as it is, and neither calls an adapter nor sleeps: the state of
    the run is left as it was. *)
Theorem unknown_provider_identity (World : Type)
    (openai watson claude : string -> Config -> Z -> World -> outcome string * World)
    (note : string) (slide_number : Z) (ai : string) (config : Config)
    (level : Z) (st : run_state World) :
  ai <> "openai" -> ai <> "watson" -> ai <> "claude" ->
  1 <= max_retries config ->
  summarize_note World openai watson claude note slide_number ai config level st
  = (Return (Some note), st).
Proof.
  intros H1 H2 H3 Hmax. unfold summarize_note.
  destruct (Z.to_nat (max_retries config)) as [|turns] eqn:E; [lia|].
  apply turn_returns, try_unknown. now apply provider_of_unknown.
Qed.

Lemma unknown_provider_identity_witness :
  summarize_note nat adapter_down adapter_down adapter_down
    "Some speaker notes." 2 "perplexity" (sample_config 3 10) 5 start
  = (Return (Some "Some speaker notes."), start).
Proof.
  apply unknown_provider_identity; [discriminate | discriminate | discriminate |].
  simpl. lia.
Defined.

(** * Further properties of the code *)

(** ** extractors.py *)

Section Extraction.

Lemma clean_text_xml_only (text : string) :
  all_chars xml_char (clean_text_for_xml text) = true.
Proof.
  induction text as [|c rest IH]; [reflexivity|].
  cbn [clean_text_for_xml]. destruct (xml_char c) eqn:E; [|exact IH].
  cbn [all_chars]. now rewrite E.
Qed.

Lemma clean_text_fixed (text : string) :
  all_chars xml_char text = true -> clean_text_for_xml text = text.
Proof.
  induction text as [|c rest IH]; [reflexivity|].
  cbn [all_chars clean_text_for_xml]. intros H.
  apply andb_true_iff in H. destruct H as [Hc Hrest].
  now rewrite Hc, IH.
Qed.

Lemma clean_text_length (text : string) :
  (String.length (clean_text_for_xml text) <= String.length text)%nat.
Proof.
  induction text as [|c rest IH]; [reflexivity|].
  cbn [clean_text_for_xml]. destruct (xml_char c); simpl; lia.
Qed.

Lemma extract_slide_truthy (i : Z) (s : slide) :
  Py.truthy (snd (extract_slide i s)) = true.
Proof.
  destruct s as [|[text|]|e]; try reflexivity.
  cbn [extract_slide snd].
  destruct (Py.truthy (clean_text_for_xml text)) eqn:E; [exact E | reflexivity].
Qed.

Lemma extract_from_length (slides : list slide) :
  forall i, List.length (extract_from i slides) = List.length slides.
Proof.
  induction slides as [|s rest IH]; intros i; [reflexivity|].
  cbn [extract_from List.length]. now rewrite IH.
Qed.

Lemma extract_from_truthy (slides : list slide) :
  forall i, Forall (fun unit => Py.truthy (snd unit) = true) (extract_from i slides).
Proof.
  induction slides as [|s rest IH]; intros i; constructor;
    [apply extract_slide_truthy | apply IH].
Qed.

Lemma without_notes_sentinel (i : Z) (s : slide) :
  without_notes s = true -> sentinel (snd (extract_slide i s)) = true.
Proof.
  destruct s as [|[text|]|e]; try reflexivity; [|discriminate].
  cbn [without_notes extract_slide snd]. intros H.
  apply negb_true_iff in H. now rewrite H.
Qed.

End Extraction.

Lemma clean_text_is_filter (text : string) :
  list_ascii_of_string (clean_text_for_xml text)
  = filter xml_char (list_ascii_of_string text).
Proof.
  induction text as [|c rest IH]; [reflexivity|].
  cbn [clean_text_for_xml list_ascii_of_string filter].
  destruct (xml_char c); cbn [list_ascii_of_string]; now rewrite IH.
Qed.

Lemma xml_char_codes (c : ascii) :
  xml_char c = true
  <-> (nat_of_ascii c = 9 \/ nat_of_ascii c = 10 \/ nat_of_ascii c = 13
       \/ (32 <= nat_of_ascii c <= 127))%nat.
Proof.
  unfold xml_char.
  rewrite !orb_true_iff, andb_true_iff, !Nat.eqb_eq, !Nat.leb_le. tauto.
Qed.

(** X1: [clean_text_for_xml] keeps exactly the characters TAB, LF, CR and
    those from SPACE to DEL: its result is the text without its other
    characters, the kept ones in their order.  So the result holds no other
    character, is never longer than the text, is left as it is by a second
    application, and the texts it leaves as they are are the ones made of
    such characters only. *)
Theorem clean_text_for_xml_filter (text : string) :
  list_ascii_of_string (clean_text_for_xml text)
  = filter xml_char (list_ascii_of_string text)
  /\ (forall c, xml_char c = true
                <-> (nat_of_ascii c = 9 \/ nat_of_ascii c = 10
                     \/ nat_of_ascii c = 13
                     \/ (32 <= nat_of_ascii c <= 127))%nat)
  /\ all_chars xml_char (clean_text_for_xml text) = true
  /\ (String.length (clean_text_for_xml text) <= String.length text)%nat
  /\ clean_text_for_xml (clean_text_for_xml text) = clean_text_for_xml text
  /\ (clean_text_for_xml text = text <-> all_chars xml_char text = true).
Proof.
  split; [apply clean_text_is_filter|].
  split; [apply xml_char_codes|].
  split; [apply clean_text_xml_only|].
  split; [apply clean_text_length|].
  split; [apply clean_text_fixed, clean_text_xml_only|].
  split; [|apply clean_text_fixed].
  intros H. rewrite <- H. apply clean_text_xml_only.
Qed.

Lemma extract_from_texts (slides : list slide) :
  forall i,
    Forall2 (fun s unit =>
               snd unit
               = match s with
                 | NoNotesSlide => "No notes slide."
                 | NotesSlide None => "No notes found."
                 | NotesSlide (Some text) =>
                     if Py.truthy (clean_text_for_xml text)
                     then clean_text_for_xml text
                     else "No notes found."
                 | BrokenSlide e => "Error processing slide: " ++ e
                 end)
      slides (extract_from i slides).
Proof.
  induction slides as [|s rest IH]; intros i; [constructor|].
  cbn [extract_from]. constructor; [|apply IH].
  destruct s as [|[text|]|e]; reflexivity.
Qed.

(** X2: [extract_notes_from_presentation] gives one note for every slide,
    in the order of the slides, and no note is empty: a slide without a
    notes slide gets the text "No notes slide.", a slide whose notes have
    no text frame or no character that XML accepts gets the text "No notes
    found.", a slide with such characters gets its text without the
    others, and a slide that cannot be read gets an error text with the
    message of the exception. *)
Theorem extracted_notes_are_not_empty (slides : list slide) :
  List.length (extract_notes_from_presentation slides) = List.length slides
  /\ Forall (fun unit => Py.truthy (snd unit) = true)
       (extract_notes_from_presentation slides)
  /\ Forall2 (fun s unit =>
                snd unit
                = match s with
                  | NoNotesSlide => "No notes slide."
                  | NotesSlide None => "No notes found."
                  | NotesSlide (Some text) =>
                      if Py.truthy (clean_text_for_xml text)
                      then clean_text_for_xml text
                      else "No notes found."
                  | BrokenSlide e => "Error processing slide: " ++ e
                  end)
       slides (extract_notes_from_presentation slides).
Proof.
  split; [apply extract_from_length|].
  split; [apply extract_from_truthy | apply extract_from_texts].
Qed.

(** X3: a slide for which the extraction finds no notes is given a
    sentinel text, and the loop of [main] passes it through: it calls no
    provider and does not sleep, whatever [min_characters] is. *)
Theorem slides_without_notes_are_passed_through (World : Type)
    (openai watson claude : string -> Config -> Z -> World -> outcome string * World)
    (args : Args) (config : Config) (level : Z) (i : Z) (s : slide)
    (st : run_state World) :
  without_notes s = true ->
  sentinel (snd (extract_slide i s)) = true
  /\ summarize_slide World openai watson claude args config level
       (extract_slide i s) st
     = (Return (i + 1, Some (snd (extract_slide i s)),
                if summary_only args then "" else snd (extract_slide i s)), st).
Proof.
  intros H. pose proof (without_notes_sentinel i s H) as Hs.
  split; [exact Hs|].
  assert (Hi : extract_slide i s = (i + 1, snd (extract_slide i s)))
    by (destruct s as [|[text|]|e]; reflexivity).
  rewrite Hi at 1. apply summarize_slide_passes. now left.
Qed.

Lemma slides_without_notes_are_passed_through_witness :
  sentinel (snd (extract_slide 4 (NotesSlide (Some (String "233" ""))))) = true
  /\ summarize_slide nat adapter_up adapter_up adapter_up
       (sample_args "openai" false) (sample_config 3 0) 5
       (extract_slide 4 (NotesSlide (Some (String "233" "")))) start
     = (Return (4 + 1,
                Some (snd (extract_slide 4 (NotesSlide (Some (String "233" ""))))),
                snd (extract_slide 4 (NotesSlide (Some (String "233" ""))))),
        start).
Proof.
  apply (slides_without_notes_are_passed_through nat adapter_up adapter_up
           adapter_up (sample_args "openai" false)).
  reflexivity.
Defined.

(** ** summarizers.py *)

Section Summaries.

Lemma join_empty (lines : list string) :
  Forall (fun l => Py.truthy l = true) lines ->
  Py.join (String LF "") lines = "" -> lines = [].
Proof.
  intros H. destruct lines as [|l rest]; [reflexivity|].
  inversion H as [|? ? Hl _]; subst.
  destruct l as [|c l]; [discriminate|].
  destruct rest; discriminate.
Qed.

Lemma cleaned_lines_nil (lines : list string) :
  cleaned_lines lines = [] <-> forallb blank lines = true.
Proof.
  induction lines as [|line rest IH]; [now split|].
  cbn [cleaned_lines forallb].
  destruct (clean_line line) as [l|] eqn:E.
  - destruct (blank line) eqn:B.
    + apply clean_line_blank in B. congruence.
    + split; discriminate.
  - apply clean_line_blank in E. rewrite E. exact IH.
Qed.

Lemma has_char_join (c : ascii) (lines : list string) :
  Ascii.eqb LF c = false ->
  Forall (fun l => has_char c l = false) lines ->
  has_char c (Py.join (String LF "") lines) = false.
Proof.
  intros Hc. induction 1 as [|l rest Hl Hrest IH]; [reflexivity|].
  destruct rest as [|l2 rest]; [exact Hl|].
  change (Py.join (String LF "") (l :: l2 :: rest))
    with (l ++ String LF (Py.join (String LF "") (l2 :: rest))).
  rewrite has_char_append, Hl. cbn [has_char orb]. now rewrite Hc, IH.
Qed.

Lemma bullet_points_no_char (c : ascii) (sentences : list string) :
  Ascii.eqb "-" c = false -> Ascii.eqb " " c = false ->
  Forall (fun l => has_char c l = false) sentences ->
  Forall (fun l => has_char c l = false) (bullet_points sentences).
Proof.
  intros H1 H2. induction 1 as [|l rest Hl Hrest IH]; [constructor|].
  cbn [bullet_points]. destruct (Py.truthy (Py.strip l)); [|exact IH].
  constructor; [|exact IH].
  change ("- " ++ Py.strip l) with (String "-" (String " " (Py.strip l))).
  cbn [has_char]. rewrite H1, H2. cbn [orb]. now apply strip_no_char.
Qed.

Lemma retry_returns {World : Type} (target : World -> outcome string * World)
    (more : nat) :
  forall (w w' : World) (s : string),
    retry more target w = (Return s, w') ->
    exists w1, target w1 = (Return s, w').
Proof.
  induction more as [|more IH]; intros w w' s; cbn [retry];
    destruct (target w) as [[s1|e1] w1] eqn:E.
  - intros [= <- <-]. now exists w.
  - discriminate.
  - intros [= <- <-]. now exists w.
  - apply IH.
Qed.






End Summaries.

(** X4: a second application of [clean_summary] does to a cleaned text
    what its last step does, and nothing else: it replaces ["- -"] by ["-"]
    once more, from the left and without overlap; the lines stay as many
    as they were. *)
Theorem clean_summary_second_pass (summary : string) :
  clean_summary (clean_summary summary)
  = Py.replace "- -" "-" (clean_summary summary)
  /\ List.length (lines_of (clean_summary (clean_summary summary)))
     = List.length (lines_of (clean_summary summary)).
Proof.
  split; [apply clean_summary_twice|].
  pose proof (lines_of_clean_summary summary) as Hl.
  pose proof (bullets_form summary) as Hb.
  rewrite (lines_of_clean_summary (clean_summary summary)). unfold bullets at 1.
  rewrite length_map. unfold lines_of in Hl.
  destruct (Py.truthy (clean_summary summary)) eqn:Ht.
  - rewrite Hl, (cleaned_lines_fixed _ Hb). unfold lines_of. now rewrite Ht, Hl.
  - destruct (clean_summary summary); [reflexivity | discriminate].
Qed.

(** X5: the cleaned summary is empty exactly when every line of the text is
    empty or white space only; the empty text is such a text. *)
Theorem clean_summary_empty (summary : string) :
  clean_summary summary = "" <-> forallb blank (Py.split LF summary) = true.
Proof.
  rewrite <- cleaned_lines_nil. split; intros H.
  - pose proof (lines_of_clean_summary summary) as Hl.
    rewrite H in Hl. unfold bullets in Hl.
    destruct (cleaned_lines (Py.split LF summary)); [reflexivity | discriminate].
  - unfold clean_summary. now rewrite H.
Qed.

(** X6: a summary that [summarize_with_watson] returns holds no period: it
    is made of a text the vendor answered with in that call of the adapter,
    cut at every period, with one bullet for each piece that is not blank;
    so a period inside a number or an abbreviation ends a bullet as
    well. *)
Theorem watson_summary_has_no_period (World : Type)
    (watson_analyze : Config -> string -> Z -> World -> watson_reply * World)
    (note : string) (config : Config) (level : Z) (w w' : World)
    (summary : string) :
  summarize_with_watson World watson_analyze note config level w
  = (Return summary, w') ->
  has_char "." summary = false
  /\ exists text w1,
       watson_analyze config note level w1 = (WatsonResult (Some text), w')
       /\ summary = Py.join (String LF "") (bullet_points (Py.split "." text)).
Proof.
  unfold summarize_with_watson, on_exception. intros H.
  apply retry_returns in H. destruct H as (w1 & H).
  unfold summarize_with_watson_undecorated in H.
  destruct (watson_analyze config note level w1) as [[[text|]|m] w2] eqn:E;
    try discriminate.
  injection H as <- <-. split; [|now exists text, w1].
  apply has_char_join; [reflexivity|].
  apply bullet_points_no_char; [reflexivity | reflexivity |].
  apply split_pieces.
Qed.

Lemma watson_summary_has_no_period_witness :
  has_char "." ("- One" ++ String LF "- Two") = false
  /\ exists text w1,
       watson_picky (sample_config 3 10) "Results of the first quarter." 5 w1
       = (WatsonResult (Some text), 1%nat)
       /\ "- One" ++ String LF "- Two"
          = Py.join (String LF "") (bullet_points (Py.split "." text)).
Proof.
  apply (watson_summary_has_no_period nat watson_picky
           "Results of the first quarter." (sample_config 3 10) 5 O 1%nat).
  reflexivity.
Defined.

(** A period inside a number ends a bullet. *)
Example watson_bullets_of_a_number :
  Py.join (String LF "") (bullet_points (Py.split "." "Version 2.5 is out."))
  = "- Version 2" ++ String LF "- 5 is out".
Proof. reflexivity. Qed.

(** X7: a summary that [summarize_with_openai] or [summarize_with_claude]
    returns is a cleaned text: every line of it begins with exactly one
    ["- "] marker and none is blank. *)
Theorem openai_and_claude_summaries_are_cleaned (World : Type)
    (vendor : Config -> string -> World -> reply * World)
    (note : string) (config : Config) (level : Z) (w w' : World)
    (summary : string) :
  summarize_with_openai World vendor note config level w = (Return summary, w')
  \/ summarize_with_claude World vendor note config level w = (Return summary, w') ->
  (exists raw, summary = clean_summary raw)
  /\ Forall (fun l => bullet_line l = true) (lines_of summary)
  /\ Forall (fun l => blank l = false) (lines_of summary).
Proof.
  intros H.
  assert (Hraw : exists raw, summary = clean_summary raw).
  { destruct H as [H|H].
    - unfold summarize_with_openai, on_exception in H.
      apply retry_returns in H. destruct H as (w1 & H).
      unfold summarize_with_openai_undecorated in H.
      destruct (vendor config (prompt level note) w1) as [[content|m] w2];
        [|discriminate].
      injection H as <- _. now eexists.
    - unfold summarize_with_claude, on_exception in H.
      apply retry_returns in H. destruct H as (w1 & H).
      unfold summarize_with_claude_undecorated in H.
      destruct (vendor config (prompt level note) w1) as [[content|m] w2];
        [|discriminate].
      injection H as <- _. now eexists. }
  split; [exact Hraw|]. destruct Hraw as [raw ->].
  rewrite lines_of_clean_summary. pose proof (bullets_form raw) as Hb.
  split; eapply Forall_impl; try exact Hb; intros l Hl; now apply bullet_line_form.
Qed.

Lemma openai_and_claude_summaries_are_cleaned_witness :
  (exists raw, "- one" = clean_summary raw)
  /\ Forall (fun l => bullet_line l = true) (lines_of "- one")
  /\ Forall (fun l => blank l = false) (lines_of "- one").
Proof.
  apply (openai_and_claude_summaries_are_cleaned nat vendor_up
           "Results of the first quarter." (sample_config 3 10) 5 O 1%nat).
  right. reflexivity.
Defined.



(** ** main.py: the retry policy *)

Section RetryCounts.

Variable World : Type.
Variables openai watson claude :
  string -> Config -> Z -> World -> outcome string * World.

Lemma count_attempts_app (a b : list event) :
  count_attempts (a ++ b)%list = (count_attempts a + count_attempts b)%nat.
Proof.
  induction a as [|[p n l|s] a IH]; cbn [app count_attempts]; [reflexivity| |];
    rewrite IH; reflexivity.
Qed.

Lemma count_sleeps_app (a b : list event) :
  count_sleeps (a ++ b)%list = (count_sleeps a + count_sleeps b)%nat.
Proof.
  induction a as [|[p n l|s] a IH]; cbn [app count_sleeps]; [reflexivity| |];
    rewrite IH; reflexivity.
Qed.

Lemma total_sleep_app (a b : list event) :
  total_sleep (a ++ b)%list = total_sleep a + total_sleep b.
Proof.
  induction a as [|[p n l|s] a IH]; cbn [app total_sleep]; [reflexivity| |];
    rewrite IH; lia.
Qed.

Lemma failing_attempts_step (p : provider) (note : string) (level : Z)
    (k : nat) (a : Z) :
  failing_attempts p note level (S (S k)) a
  = Attempt p note level :: Sleep (2 ^ a)
    :: failing_attempts p note level (S k) (a + 1).
Proof. reflexivity. Qed.

Lemma failing_attempts_counts (p : provider) (note : string) (level : Z)
    (k : nat) :
  forall a, 0 <= a ->
    count_attempts (failing_attempts p note level (S k) a) = S k
    /\ count_sleeps (failing_attempts p note level (S k) a) = k
    /\ total_sleep (failing_attempts p note level (S k) a)
       = 2 ^ (a + Z.of_nat k) - 2 ^ a.
Proof.
  induction k as [|k IH]; intros a Ha.
  - cbn [failing_attempts count_attempts count_sleeps total_sleep].
    rewrite Z.add_0_r. repeat split. lia.
  - rewrite failing_attempts_step.
    cbn [count_attempts count_sleeps total_sleep].
    destruct (IH (a + 1)) as (H1 & H2 & H3); [lia|].
    rewrite H1, H2, H3. repeat split.
    replace (a + 1 + Z.of_nat k) with (a + Z.of_nat (S k)) by lia.
    rewrite (Z.pow_add_r 2 a 1) by lia. lia.
Qed.

Lemma try_events (ai : string) (p : provider) (note : string)
    (config : Config) (level : Z) (st st1 : run_state World)
    (r : outcome string) :
  provider_of ai = Some p ->
  summarize_note_try World openai watson claude note ai config level st = (r, st1) ->
  events st1 = (events st ++ [Attempt p note level])%list.
Proof.
  intros Hp. rewrite (try_known World openai watson claude ai p) by exact Hp.
  unfold await_adapter.
  destruct (adapter_of openai watson claude p note config level (world st)).
  now intros [= _ <-].
Qed.

Lemma loop_invariant (ai : string) (p : provider) (note : string) (n : Z)
    (config : Config) (level : Z) :
  provider_of ai = Some p ->
  forall (turns : nat) (attempt : Z) (st : run_state World),
    0 <= attempt ->
    attempt + Z.of_nat (S turns) = max_retries config ->
    exists r st' more,
      summarize_note_from World openai watson claude (S turns) attempt
        note n ai config level st = (r, st')
      /\ events st' = (events st ++ more)%list
      /\ (1 <= count_attempts more <= S turns)%nat
      /\ S (count_sleeps more) = count_attempts more
      /\ Forall (concerns p note level) more.
Proof.
  intros Hp.
  assert (Hone : forall st st1 : run_state World,
             events st1 = (events st ++ [Attempt p note level])%list ->
             forall turns : nat,
             events st1 = (events st ++ [Attempt p note level])%list
             /\ (1 <= count_attempts [Attempt p note level] <= S turns)%nat
             /\ S (count_sleeps [Attempt p note level])
                = count_attempts [Attempt p note level]
             /\ Forall (concerns p note level) [Attempt p note level]).
  { intros st st1 H turns. split; [exact H|]. split; [cbn; lia|].
    split; [reflexivity|]. constructor; [now repeat split | constructor]. }
  induction turns as [|turns IH]; intros attempt st Ha Hmax;
    destruct (summarize_note_try World openai watson claude note ai config level st)
      as [[s|[e|e]] st1] eqn:Et;
    pose proof (try_events ai p note config level st st1 _ Hp Et) as Hev1.
  - rewrite (turn_returns _ _ _ _ _ _ _ _ _ _ _ _ _ _ Et).
    do 2 eexists. exists [Attempt p note level]. split; [reflexivity|]. now apply Hone.
  - rewrite (turn_gives_up _ _ _ _ _ _ _ _ _ _ _ _ _ _ Et) by lia.
    do 2 eexists. exists [Attempt p note level]. split; [reflexivity|]. now apply Hone.
  - rewrite (turn_raises _ _ _ _ _ _ _ _ _ _ _ _ _ _ Et).
    do 2 eexists. exists [Attempt p note level]. split; [reflexivity|]. now apply Hone.
  - rewrite (turn_returns _ _ _ _ _ _ _ _ _ _ _ _ _ _ Et).
    do 2 eexists. exists [Attempt p note level]. split; [reflexivity|]. now apply Hone.
  - rewrite (turn_retries _ _ _ _ _ _ _ _ _ _ _ _ _ _ Et) by lia.
    destruct (IH (attempt + 1)
                {| world := world st1;
                   events := (events st1 ++ [Sleep (2 ^ attempt)])%list |})
      as (r & st' & more & E1 & Hev & Hcount & Hsleeps & Hall); [lia | lia |].
    rewrite E1. exists r, st'.
    exists (Attempt p note level :: Sleep (2 ^ attempt) :: more).
    split; [reflexivity|]. split.
    { rewrite Hev. cbn [events]. rewrite Hev1, <- !app_assoc. reflexivity. }
    cbn [count_attempts count_sleeps]. split; [lia|]. split; [lia|].
    constructor; [now repeat split|]. constructor; [|exact Hall].
    cbn [concerns]. pose proof (Z.pow_pos_nonneg 2 attempt). lia.
  - rewrite (turn_raises _ _ _ _ _ _ _ _ _ _ _ _ _ _ Et).
    do 2 eexists. exists [Attempt p note level]. split; [reflexivity|]. now apply Hone.
Qed.

Lemma summarize_note_events (note : string) (n : Z) (ai : string)
    (config : Config) (level : Z) (st : run_state World) :
  exists r st' more,
    summarize_note World openai watson claude note n ai config level st = (r, st')
    /\ events st' = (events st ++ more)%list
    /\ (count_attempts more <= Z.to_nat (max_retries config))%nat
    /\ count_sleeps more = Nat.pred (count_attempts more)
    /\ match provider_of ai with
       | Some p => Forall (concerns p note level) more
       | None => more = []
       end.
Proof.
  unfold summarize_note.
  destruct (Z.to_nat (max_retries config)) as [|turns] eqn:Et.
  - exists (Return None), st, []. rewrite app_nil_r.
    repeat split; try reflexivity. destruct (provider_of ai); [constructor | reflexivity].
  - destruct (provider_of ai) as [p|] eqn:Hp.
    + destruct (loop_invariant ai p note n config level Hp turns 0 st)
        as (r & st' & more & E & Hev & Hc & Hs & Hall); [lia | lia |].
      exists r, st', more. repeat split; try assumption; lia.
    + rewrite (turn_returns World openai watson claude turns 0 note n ai config
                 level st st note) by now apply try_unknown.
      exists (Return (Some note)), st, []. rewrite app_nil_r.
      repeat split; cbn; lia.
Qed.

Lemma loop_shape (ai : string) (p : provider) (note : string) (n : Z)
    (config : Config) (level : Z) :
  provider_of ai = Some p ->
  forall (turns : nat) (attempt : Z) (st : run_state World),
    attempt + Z.of_nat (S turns) = max_retries config ->
    exists r st' k,
      summarize_note_from World openai watson claude (S turns) attempt
        note n ai config level st = (r, st')
      /\ (k <= turns)%nat
      /\ events st'
         = (events st ++ failing_attempts p note level (S k) attempt)%list.
Proof.
  intros Hp.
  induction turns as [|turns IH]; intros attempt st Hmax;
    destruct (summarize_note_try World openai watson claude note ai config level st)
      as [[s|[e|e]] st1] eqn:Et;
    pose proof (try_events ai p note config level st st1 _ Hp Et) as Hev1.
  - rewrite (turn_returns _ _ _ _ _ _ _ _ _ _ _ _ _ _ Et).
    do 2 eexists. exists O. split; [reflexivity|]. split; [lia | exact Hev1].
  - rewrite (turn_gives_up _ _ _ _ _ _ _ _ _ _ _ _ _ _ Et) by lia.
    do 2 eexists. exists O. split; [reflexivity|]. split; [lia | exact Hev1].
  - rewrite (turn_raises _ _ _ _ _ _ _ _ _ _ _ _ _ _ Et).
    do 2 eexists. exists O. split; [reflexivity|]. split; [lia | exact Hev1].
  - rewrite (turn_returns _ _ _ _ _ _ _ _ _ _ _ _ _ _ Et).
    do 2 eexists. exists O. split; [reflexivity|]. split; [lia | exact Hev1].
  - rewrite (turn_retries _ _ _ _ _ _ _ _ _ _ _ _ _ _ Et) by lia.
    destruct (IH (attempt + 1)
                {| world := world st1;
                   events := (events st1 ++ [Sleep (2 ^ attempt)])%list |})
      as (r & st' & k & E1 & Hk & Hev); [lia|].
    rewrite E1. exists r, st', (S k). split; [reflexivity|]. split; [lia|].
    rewrite Hev. cbn [events]. rewrite Hev1, failing_attempts_step, <- !app_assoc.
    reflexivity.
  - rewrite (turn_raises _ _ _ _ _ _ _ _ _ _ _ _ _ _ Et).
    do 2 eexists. exists O. split; [reflexivity|]. split; [lia | exact Hev1].
Qed.

Lemma summarize_note_shape (note : string) (n : Z) (ai : string)
    (config : Config) (level : Z) (st : run_state World) :
  exists r st' k,
    summarize_note World openai watson claude note n ai config level st = (r, st')
    /\ (k <= Z.to_nat (max_retries config))%nat
    /\ events st'
       = (events st
          ++ match provider_of ai with
             | Some p => failing_attempts p note level k 0
             | None => []
             end)%list.
Proof.
  unfold summarize_note.
  destruct (Z.to_nat (max_retries config)) as [|turns] eqn:Et.
  - exists (Return None), st, O. split; [reflexivity|]. split; [lia|].
    destruct (provider_of ai); cbn [failing_attempts]; now rewrite app_nil_r.
  - destruct (provider_of ai) as [p|] eqn:Hp.
    + destruct (loop_shape ai p note n config level Hp turns 0 st)
        as (r & st' & k & E & Hk & Hev); [lia|].
      exists r, st', (S k). split; [exact E|]. split; [lia | exact Hev].
    + rewrite (turn_returns World openai watson claude turns 0 note n ai config
                 level st st note) by now apply try_unknown.
      exists (Return (Some note)), st, O. split; [reflexivity|]. split; [lia|].
      now rewrite app_nil_r.
Qed.

Lemma failing_attempts_end (p : provider) (note : string) (level : Z) (k : nat) :
  forall a, exists front,
    failing_attempts p note level (S k) a
    = (front ++ [Attempt p note level])%list.
Proof.
  induction k as [|k IH]; intros a.
  - now exists [].
  - destruct (IH (a + 1)) as [front E]. rewrite failing_attempts_step, E.
    now exists (Attempt p note level :: Sleep (2 ^ a) :: front).
Qed.

Lemma failing_attempts_no_last_sleep (p : provider) (note : string) (level : Z)
    (k : nat) (a : Z) (front : list event) (seconds : Z) :
  failing_attempts p note level k a <> (front ++ [Sleep seconds])%list.
Proof.
  destruct k as [|k].
  - cbn [failing_attempts]. intros H. symmetry in H. now apply app_eq_nil in H.
  - destruct (failing_attempts_end p note level k a) as [front' E]. rewrite E.
    intros H. apply app_inj_tail in H. destruct H as [_ H]. discriminate.
Qed.

End RetryCounts.

(** X9: with a provider operation that always fails with a
    [SummarizationError] and any [max_retries = n] of at least 1,
    [summarize_note] returns an error text after exactly [n] attempts and
    [n - 1] sleeps, which add up to [2 ^ (n - 1) - 1] seconds. *)
Theorem exhaustion_after_n_attempts (World : Type)
    (openai watson claude : string -> Config -> Z -> World -> outcome string * World)
    (ai : string) (p : provider) (note : string) (slide_number : Z)
    (config : Config) (level : Z) (st : run_state World) :
  provider_of ai = Some p ->
  always_fails (adapter_of openai watson claude p) ->
  1 <= max_retries config ->
  exists e st' more,
    summarize_note World openai watson claude note slide_number ai config level st
    = (Return (Some ("Error in summarization: " ++ e)), st')
    /\ events st' = (events st ++ more)%list
    /\ Z.of_nat (count_attempts more) = max_retries config
    /\ Z.of_nat (count_sleeps more) = max_retries config - 1
    /\ total_sleep more = 2 ^ (max_retries config - 1) - 1.
Proof.
  intros Hp Hfail Hmax. unfold summarize_note.
  destruct (Z.to_nat (max_retries config)) as [|turns] eqn:Et; [lia|].
  destruct (exhaustion World openai watson claude ai p note slide_number config
              level Hp (Hfail note config level) turns 0 st)
    as (e & st' & E & _ & Hev); [lia|].
  destruct (failing_attempts_counts p note level turns 0) as (H1 & H2 & H3); [lia|].
  exists e, st', (failing_attempts p note level (S turns) 0).
  split; [exact E|]. split; [exact Hev|].
  rewrite H1, H2, H3. split; [lia|]. split; [lia|].
  replace (0 + Z.of_nat turns) with (max_retries config - 1) by lia.
  reflexivity.
Qed.

Lemma exhaustion_after_n_attempts_witness :
  exists e st' more,
    summarize_note nat adapter_down adapter_down adapter_down
      "Long speaker notes." 4 "watson" (sample_config 5 10) 5 start
    = (Return (Some ("Error in summarization: " ++ e)), st')
    /\ events st' = (events start ++ more)%list
    /\ Z.of_nat (count_attempts more) = max_retries (sample_config 5 10)
    /\ Z.of_nat (count_sleeps more) = max_retries (sample_config 5 10) - 1
    /\ total_sleep more = 2 ^ (max_retries (sample_config 5 10) - 1) - 1.
Proof.
  apply (exhaustion_after_n_attempts nat adapter_down adapter_down adapter_down
           "watson" Watson).
  - reflexivity.
  - intros note config level w. exists "quota exceeded", (S w). reflexivity.
  - simpl. lia.
Defined.

(** X10: whatever the adapters do, [summarize_note] calls an adapter at
    most [max_retries] times (never, when [max_retries] is not positive or
    the provider is unknown), only with the note and the level it was
    given, and sleeps once between two calls and at no other time: its
    events are a call, a sleep of 1, a call, a sleep of 2, a call and so
    on, and they never end with a sleep. *)
Theorem attempts_are_bounded (World : Type)
    (openai watson claude : string -> Config -> Z -> World -> outcome string * World)
    (note : string) (slide_number : Z) (ai : string) (config : Config)
    (level : Z) (st : run_state World) :
  exists r st' more,
    summarize_note World openai watson claude note slide_number ai config level st
    = (r, st')
    /\ events st' = (events st ++ more)%list
    /\ Z.of_nat (count_attempts more) <= Z.max 0 (max_retries config)
    /\ count_sleeps more = Nat.pred (count_attempts more)
    /\ match provider_of ai with
       | Some p => Forall (concerns p note level) more
       | None => more = []
       end
    /\ match provider_of ai with
       | Some p =>
           exists k, (k <= Z.to_nat (max_retries config))%nat
                     /\ more = failing_attempts p note level k 0
       | None => more = []
       end
    /\ forall front seconds, more <> (front ++ [Sleep seconds])%list.
Proof.
  destruct (summarize_note_events World openai watson claude note slide_number ai
              config level st) as (r & st' & more & E & Hev & Hc & Hs & Hall).
  destruct (summarize_note_shape World openai watson claude note slide_number ai
              config level st) as (r2 & st2 & k & E2 & Hk & Hev2).
  rewrite E in E2. injection E2 as <- <-.
  assert (Hmore : more = match provider_of ai with
                         | Some p => failing_attempts p note level k 0
                         | None => []
                         end).
  { rewrite Hev in Hev2. now apply app_inv_head in Hev2. }
  exists r, st', more. split; [exact E|]. split; [exact Hev|].
  split; [lia|]. split; [exact Hs|]. split; [exact Hall|].
  destruct (provider_of ai) as [p|].
  - split; [now exists k|]. rewrite Hmore.
    intros front seconds. apply failing_attempts_no_last_sleep.
  - split; [exact Hmore|]. rewrite Hmore. intros front seconds H.
    symmetry in H. now apply app_eq_nil in H.
Qed.

Section RetryOutcomes.

Variable World : Type.
Variables openai watson claude :
  string -> Config -> Z -> World -> outcome string * World.

Lemma try_result (ai : string) (p : provider) (note : string)
    (config : Config) (level : Z) (st : run_state World)
    (r : outcome string) (w1 : World) :
  provider_of ai = Some p ->
  adapter_of openai watson claude p note config level (world st) = (r, w1) ->
  summarize_note_try World openai watson claude note ai config level st
  = (r, {| world := w1; events := (events st ++ [Attempt p note level])%list |}).
Proof.
  intros Hp H. rewrite (try_known World openai watson claude ai p) by exact Hp.
  unfold await_adapter. now rewrite H.
Qed.

(** Exhaustion, with a measure of the world that every failing call
    raises by [c]. *)
Lemma exhaustion_measure (measure : World -> nat) (c : nat)
    (ai : string) (p : provider) (note : string) (n : Z)
    (config : Config) (level : Z) :
  provider_of ai = Some p ->
  (forall w, exists e w',
      adapter_of openai watson claude p note config level w
      = (Raise (SummarizationError e), w')
      /\ measure w' = (measure w + c)%nat) ->
  forall (turns : nat) (attempt : Z) (st : run_state World),
    attempt + Z.of_nat turns = max_retries config - 1 ->
    exists e st',
      summarize_note_from World openai watson claude (S turns) attempt
        note n ai config level st
      = (Return (Some ("Error in summarization: " ++ e)), st')
      /\ measure (world st') = (measure (world st) + c * S turns)%nat.
Proof.
  intros Hp Hfail. induction turns as [|turns IH]; intros attempt st Hlast;
    destruct (Hfail (world st)) as (e & w1 & Ea & Hm);
    pose proof (try_result ai p note config level st _ w1 Hp Ea) as Et.
  - rewrite (turn_gives_up _ _ _ _ _ _ _ _ _ _ _ _ _ _ Et) by lia.
    exists e. eexists. split; [reflexivity|]. cbn [world]. lia.
  - rewrite (turn_retries _ _ _ _ _ _ _ _ _ _ _ _ _ _ Et) by lia.
    cbn [world events].
    destruct (IH (attempt + 1)
                {| world := w1;
                   events := ((events st ++ [Attempt p note level])
                              ++ [Sleep (2 ^ attempt)])%list |})
      as (e' & st' & E & Hm'); [lia|].
    exists e', st'. split; [exact E|]. cbn [world] in Hm'. lia.
Qed.

End RetryOutcomes.

Section DecoratedAdapters.

Variable World : Type.

Lemma retry_raised (target : World -> outcome string * World) (more : nat) :
  forall (w w' : World) (ex : exception),
    retry more target w = (Raise ex, w') ->
    exists w1, target w1 = (Raise ex, w').
Proof.
  induction more as [|more IH]; intros w w' ex; cbn [retry];
    destruct (target w) as [[s1|e1] w1] eqn:E; try discriminate.
  - intros [= <- <-]. now exists w.
  - apply IH.
Qed.

Lemma retry_measure (measure : World -> nat)
    (target : World -> outcome string * World) :
  (forall w, exists e w', target w = (Raise (SummarizationError e), w')
                          /\ measure w' = S (measure w)) ->
  forall (more : nat) (w : World),
  exists e w', retry more target w = (Raise (SummarizationError e), w')
               /\ measure w' = (measure w + S more)%nat.
Proof.
  intros Ht. induction more as [|more IH]; intros w; cbn [retry];
    destruct (Ht w) as (e & w1 & E & Hm); rewrite E.
  - exists e, w1. split; [reflexivity | lia].
  - destruct (IH w1) as (e' & w' & E' & Hm'). exists e', w'.
    split; [exact E' | lia].
Qed.

End DecoratedAdapters.

(** X11: a call of the adapter that returns ends the work on the note.
    When the first call returns there is one attempt and no sleep; when the
    first call fails and the second returns there are two attempts with a
    sleep of one second between them; in both cases [summarize_note]
    returns the summary of the adapter as it is. *)
Theorem success_ends_the_retries (World : Type)
    (openai watson claude : string -> Config -> Z -> World -> outcome string * World)
    (ai : string) (p : provider) (note : string) (slide_number : Z)
    (config : Config) (level : Z) (st : run_state World) :
  provider_of ai = Some p ->
  (forall summary w1,
     1 <= max_retries config ->
     adapter_of openai watson claude p note config level (world st)
     = (Return summary, w1) ->
     summarize_note World openai watson claude note slide_number ai config level st
     = (Return (Some summary),
        {| world := w1; events := (events st ++ [Attempt p note level])%list |}))
  /\ (forall e w1 summary w2,
        2 <= max_retries config ->
        adapter_of openai watson claude p note config level (world st)
        = (Raise (SummarizationError e), w1) ->
        adapter_of openai watson claude p note config level w1
        = (Return summary, w2) ->
        summarize_note World openai watson claude note slide_number ai config level st
        = (Return (Some summary),
           {| world := w2;
              events := (events st ++ [Attempt p note level; Sleep 1;
                                       Attempt p note level])%list |})).
Proof.
  intros Hp. split.
  - intros summary w1 Hmax Ha. unfold summarize_note.
    destruct (Z.to_nat (max_retries config)) as [|turns] eqn:Et; [lia|].
    apply turn_returns. now apply try_result.
  - intros e w1 summary w2 Hmax Ha1 Ha2. unfold summarize_note.
    destruct (Z.to_nat (max_retries config)) as [|[|turns]] eqn:Et; [lia | lia |].
    rewrite (turn_retries World openai watson claude _ _ _ _ _ _ _ _ _ _
               (try_result World openai watson claude ai p note config level
                  st _ w1 Hp Ha1)) by lia.
    cbn [world events].
    erewrite turn_returns; [|apply try_result; [exact Hp | exact Ha2]].
    cbn [world events]. rewrite <- !app_assoc. reflexivity.
Qed.

Lemma success_ends_the_retries_witness :
  summarize_note nat adapter_up adapter_up adapter_up
    "Long speaker notes." 4 "claude" (sample_config 3 10) 5 start
  = (Return (Some "- done"),
     {| world := 1%nat;
        events := (events start ++ [Attempt Claude "Long speaker notes." 5])%list |})
  /\ summarize_note nat adapter_flaky adapter_flaky adapter_flaky
       "Long speaker notes." 4 "claude" (sample_config 3 10) 5 start
     = (Return (Some "- done"),
        {| world := 2%nat;
           events := (events start ++ [Attempt Claude "Long speaker notes." 5;
                                       Sleep 1;
                                       Attempt Claude "Long speaker notes." 5])%list |}).
Proof.
  split.
  - apply (success_ends_the_retries nat adapter_up adapter_up adapter_up
             "claude" Claude "Long speaker notes." 4 (sample_config 3 10) 5 start
             eq_refl); [simpl; lia | reflexivity].
  - apply (proj2 (success_ends_the_retries nat adapter_flaky adapter_flaky
                    adapter_flaky "claude" Claude "Long speaker notes." 4
                    (sample_config 3 10) 5 start eq_refl) "timeout" 1%nat);
      [simpl; lia | reflexivity | reflexivity].
Defined.

(** X12: an exception of an adapter that is not a [SummarizationError] is
    not caught by [summarize_note]: there is no retry and no sleep, the
    exception leaves the loop of [main] at that unit, no list of triples is
    returned and the units that follow are not processed. *)
Theorem other_exceptions_end_the_loop (World : Type)
    (openai watson claude : string -> Config -> Z -> World -> outcome string * World)
    (args : Args) (config : Config) (p : provider) (slide_number : Z)
    (note : string) (rest : list (Z * string)) (st : run_state World)
    (e : string) (w1 : World) :
  provider_of (ai args) = Some p ->
  extract_only args = false ->
  1 <= max_retries config ->
  eligible config note = true ->
  adapter_of openai watson claude p note config (level_of args config) (world st)
  = (Raise (Exception e), w1) ->
  main_summaries World openai watson claude args config
    ((slide_number, note) :: rest) st
  = (Raise (Exception e),
     {| world := w1;
        events := (events st ++ [Attempt p note (level_of args config)])%list |}).
Proof.
  intros Hp Hex Hmax Hel Ha. unfold main_summaries. fold (level_of args config).
  rewrite Hex. cbn [negb summarize_slides]. unfold bind at 1.
  unfold eligible in Hel. apply andb_true_iff in Hel. destruct Hel as [Hs Hl].
  apply negb_true_iff in Hs, Hl. apply Z.ltb_ge in Hl.
  rewrite summarize_slide_dispatches by assumption.
  unfold summarize_note.
  destruct (Z.to_nat (max_retries config)) as [|turns] eqn:Et; [lia|].
  now rewrite (turn_raises World openai watson claude _ _ _ _ _ _ _ _ _ _
                 (try_result World openai watson claude (ai args) p note config
                    (level_of args config) st _ w1 Hp Ha)).
Qed.

Lemma other_exceptions_end_the_loop_witness :
  main_summaries nat adapter_broken adapter_broken adapter_broken
    (sample_args "openai" false) (sample_config 3 10)
    [(1, "Welcome and agenda of the talk."); (2, "Results of the first quarter.")]
    start
  = (Raise (Exception "object has no attribute"),
     {| world := 1%nat;
        events := (events start
                   ++ [Attempt OpenAI "Welcome and agenda of the talk."
                         (level_of (sample_args "openai" false) (sample_config 3 10))])%list |}).
Proof.
  apply (other_exceptions_end_the_loop nat adapter_broken adapter_broken
           adapter_broken (sample_args "openai" false) (sample_config 3 10) OpenAI);
    try reflexivity.
  simpl. lia.
Defined.

(** X13: every attempt of [summarize_note] is ten calls of the vendor when
    the vendor is down, because each adapter is decorated to try ten times:
    with vendors that never answer with a summary, a note costs
    [10 * max_retries] vendor calls before its error text is returned. *)
Theorem ten_vendor_calls_for_each_attempt (World : Type)
    (anthropic_messages_create openai_chat_completions_create :
       Config -> string -> World -> reply * World)
    (watson_analyze : Config -> string -> Z -> World -> watson_reply * World)
    (ai : string) (p : provider) (note : string) (slide_number : Z)
    (config : Config) (level : Z) (st : run_state (World * nat)) :
  provider_of ai = Some p ->
  1 <= max_retries config ->
  (forall c request w, exists m w',
      anthropic_messages_create c request w = (Raised m, w')) ->
  (forall c request w, exists m w',
      openai_chat_completions_create c request w = (Raised m, w')) ->
  (forall c n l w text w',
      watson_analyze c n l w <> (WatsonResult (Some text), w')) ->
  exists e st',
    summarize_note (World * nat)
      (summarize_with_openai (World * nat) (counted openai_chat_completions_create))
      (summarize_with_watson (World * nat) (counted_watson watson_analyze))
      (summarize_with_claude (World * nat) (counted anthropic_messages_create))
      note slide_number ai config level st
    = (Return (Some ("Error in summarization: " ++ e)), st')
    /\ Z.of_nat (snd (world st'))
       = Z.of_nat (snd (world st)) + 10 * max_retries config.
Proof.
  intros Hp Hmax Hc Ho Hw. unfold summarize_note.
  destruct (Z.to_nat (max_retries config)) as [|turns] eqn:Et; [lia|].
  assert (Hfail : forall w, exists e w',
             adapter_of
               (summarize_with_openai (World * nat)
                  (counted openai_chat_completions_create))
               (summarize_with_watson (World * nat) (counted_watson watson_analyze))
               (summarize_with_claude (World * nat)
                  (counted anthropic_messages_create))
               p note config level w = (Raise (SummarizationError e), w')
             /\ snd w' = (snd w + 10)%nat).
  { intros w. destruct p; cbn [adapter_of];
      unfold summarize_with_openai, summarize_with_watson, summarize_with_claude,
        on_exception;
      apply (retry_measure (World * nat) snd); intros w0.
    - unfold summarize_with_openai_undecorated, counted.
      destruct (Ho config (prompt level note) (fst w0)) as (m & w1 & E). rewrite E.
      now eexists _, _.
    - unfold summarize_with_watson_undecorated, counted_watson.
      destruct (watson_analyze config note level (fst w0)) as [[[text|]|m] w1] eqn:E.
      + now apply Hw in E.
      + now eexists _, _.
      + now eexists _, _.
    - unfold summarize_with_claude_undecorated, counted.
      destruct (Hc config (prompt level note) (fst w0)) as (m & w1 & E). rewrite E.
      now eexists _, _. }
  destruct (exhaustion_measure (World * nat) _ _ _ snd 10 ai p note slide_number
              config level Hp Hfail turns 0 st) as (e & st' & E & Hm); [lia|].
  exists e, st'. split; [exact E|]. lia.
Qed.

Lemma ten_vendor_calls_for_each_attempt_witness :
  exists e st',
    summarize_note (nat * nat)
      (summarize_with_openai (nat * nat) (counted vendor_down))
      (summarize_with_watson (nat * nat) (counted_watson watson_down))
      (summarize_with_claude (nat * nat) (counted vendor_down))
      "Long speaker notes." 4 "watson" (sample_config 2 10) 5
      {| world := (O, O); events := [] |}
    = (Return (Some ("Error in summarization: " ++ e)), st')
    /\ Z.of_nat (snd (world st'))
       = Z.of_nat (snd (world {| world := (O, O); events := @nil event |}))
         + 10 * max_retries (sample_config 2 10).
Proof.
  apply (ten_vendor_calls_for_each_attempt nat vendor_down vendor_down watson_down
           "watson" Watson).
  - reflexivity.
  - simpl. lia.
  - intros c request w. now eexists _, _.
  - intros c request w. now eexists _, _.
  - intros c n l w text w'. discriminate.
Defined.

(** X14: an adapter raises nothing but [SummarizationError], and its
    message begins with the words of the adapter: whatever goes wrong in a
    vendor call, the caller sees one class of error that names the
    provider. *)
Theorem adapter_errors_name_their_provider (World : Type)
    (anthropic_messages_create openai_chat_completions_create :
       Config -> string -> World -> reply * World)
    (watson_analyze : Config -> string -> Z -> World -> watson_reply * World)
    (p : provider) (note : string) (config : Config) (level : Z)
    (w w' : World) (ex : exception) :
  adapter_of
    (summarize_with_openai World openai_chat_completions_create)
    (summarize_with_watson World watson_analyze)
    (summarize_with_claude World anthropic_messages_create)
    p note config level w = (Raise ex, w') ->
  exists m, ex = SummarizationError (failure_prefix p ++ m).
Proof.
  destruct p; cbn [adapter_of failure_prefix];
    unfold summarize_with_openai, summarize_with_watson, summarize_with_claude,
      on_exception; intros H; apply retry_raised in H; destruct H as (w1 & H).
  - unfold summarize_with_openai_undecorated in H.
    destruct (openai_chat_completions_create config (prompt level note) w1)
      as [[t|m] w2]; [discriminate|].
    injection H as <- _. now exists m.
  - unfold summarize_with_watson_undecorated in H.
    destruct (watson_analyze config note level w1) as [[[t|]|m] w2];
      [discriminate | |]; injection H as <- _;
      [exists "Watson API did not return a summary" | exists m]; reflexivity.
  - unfold summarize_with_claude_undecorated in H.
    destruct (anthropic_messages_create config (prompt level note) w1)
      as [[t|m] w2]; [discriminate|].
    injection H as <- _. now exists m.
Qed.

Lemma adapter_errors_name_their_provider_witness :
  exists m,
    SummarizationError
      ("Watson summarization failed: Watson client initialization failed: "
       ++ "connection refused")
    = SummarizationError (failure_prefix Watson ++ m).
Proof.
  apply (adapter_errors_name_their_provider nat vendor_down vendor_down watson_down
           Watson "Long speaker notes." (sample_config 3 10) 5 O 10%nat).
  reflexivity.
Defined.

(** ** main.py: the batch *)

Section BatchEvents.

Variable World : Type.
Variables openai watson claude :
  string -> Config -> Z -> World -> outcome string * World.

Lemma eligible_false (config : Config) (note : string) :
  eligible config note = false ->
  sentinel note = true \/ Py.len note < min_characters config.
Proof.
  unfold eligible. intros H. apply andb_false_iff in H.
  destruct H as [H|H]; apply negb_false_iff in H; [now left | right].
  now apply Z.ltb_lt.
Qed.

Lemma eligible_true (config : Config) (note : string) :
  eligible config note = true ->
  sentinel note = false /\ min_characters config <= Py.len note.
Proof.
  unfold eligible. intros H. apply andb_true_iff in H. destruct H as [H1 H2].
  apply negb_true_iff in H1, H2. split; [exact H1 | now apply Z.ltb_ge].
Qed.

Lemma summarize_slide_result (args : Args) (config : Config) (level : Z)
    (unit : Z * string) (st st' : run_state World)
    (out : Z * option string * string) :
  summarize_slide World openai watson claude args config level unit st
  = (Return out, st') ->
  slide_index out = fst unit
  /\ note_of out = (if summary_only args then "" else snd unit).
Proof.
  destruct unit as [n note]. cbn [fst snd].
  destruct (eligible config note) eqn:El.
  - destruct (eligible_true _ _ El) as [Hs Hl].
    rewrite summarize_slide_dispatches by assumption.
    destruct (summarize_note World openai watson claude note n (ai args) config
                level st) as [[summary|e] st1]; [|discriminate].
    intros [= <- _]. split; reflexivity.
  - rewrite summarize_slide_passes by now apply eligible_false.
    intros [= <- _]. split; reflexivity.
Qed.

Lemma summarize_slides_notes (args : Args) (config : Config) (level : Z)
    (notes : list (Z * string)) :
  forall (st st' : run_state World) (outs : list (Z * option string * string)),
    summarize_slides World openai watson claude args config level notes st
    = (Return outs, st') ->
    map slide_index outs = map fst notes
    /\ map note_of outs
       = map (fun unit => if summary_only args then "" else snd unit) notes.
Proof.
  induction notes as [|unit rest IH]; intros st st' outs.
  - intros [= <- _]. split; reflexivity.
  - cbn [summarize_slides]. unfold bind at 1.
    destruct (summarize_slide World openai watson claude args config level unit st)
      as [[out|e] st1] eqn:E1; [|discriminate].
    unfold bind at 1.
    destruct (summarize_slides World openai watson claude args config level rest st1)
      as [[outs1|e] st2] eqn:E2; [|discriminate].
    intros [= <- _].
    destruct (summarize_slide_result _ _ _ _ _ _ _ E1) as [Hi Hn].
    destruct (IH _ _ _ E2) as [Hi' Hn'].
    cbn [map]. now rewrite Hi, Hn, Hi', Hn'.
Qed.

Lemma summarize_slides_ineligible (args : Args) (config : Config) (level : Z)
    (notes : list (Z * string)) (st : run_state World) :
  Forall (fun unit => eligible config (snd unit) = false) notes ->
  summarize_slides World openai watson claude args config level notes st
  = (Return (map (passed_through args) notes), st).
Proof.
  induction 1 as [|[n note] rest Hu Hrest IH]; [reflexivity|].
  cbn [summarize_slides]. unfold bind at 1.
  rewrite summarize_slide_passes by now apply eligible_false.
  unfold bind at 1. rewrite IH. reflexivity.
Qed.

Lemma dispatched_more (p : option provider) (config : Config) (level : Z)
    (notes notes' : list (Z * string)) (evs : list event) :
  (forall note, In note (map snd notes) -> In note (map snd notes')) ->
  Forall (dispatched p config level notes) evs ->
  Forall (dispatched p config level notes') evs.
Proof.
  intros Hin H. eapply Forall_impl; [|exact H].
  intros [p' n l|s]; cbn [dispatched]; [|tauto].
  intros (H1 & H2 & H3 & H4). repeat split; auto.
Qed.

Lemma summarize_slide_events (args : Args) (config : Config) (level : Z)
    (unit : Z * string) (st : run_state World) :
  exists r st' more,
    summarize_slide World openai watson claude args config level unit st = (r, st')
    /\ events st' = (events st ++ more)%list
    /\ (count_attempts more
        <= count_eligible config [unit] * Z.to_nat (max_retries config))%nat
    /\ Forall (dispatched (provider_of (ai args)) config level [unit]) more.
Proof.
  destruct unit as [n note]. unfold count_eligible. cbn [filter snd].
  destruct (eligible config note) eqn:El.
  - destruct (eligible_true _ _ El) as [Hs Hl].
    rewrite summarize_slide_dispatches by assumption.
    destruct (summarize_note_events World openai watson claude note n (ai args)
                config level st) as (r & st' & more & E & Hev & Hc & _ & Hall).
    rewrite E.
    assert (Hd : Forall (dispatched (provider_of (ai args)) config level [(n, note)])
                   more).
    { destruct (provider_of (ai args)) as [p|]; [|subst more; constructor].
      eapply Forall_impl; [|exact Hall].
      intros [p' n' l'|s]; cbn [concerns dispatched]; [|tauto].
      intros (-> & -> & ->). repeat split; [exact El | now left]. }
    destruct r as [summary|e]; do 2 eexists; exists more;
      (split; [reflexivity|]); (split; [exact Hev|]); (split; [cbn; lia | exact Hd]).
  - rewrite summarize_slide_passes by now apply eligible_false.
    do 2 eexists. exists []. rewrite app_nil_r.
    split; [reflexivity|]. split; [reflexivity|]. split; [cbn; lia | constructor].
Qed.

Lemma summarize_slides_events (args : Args) (config : Config) (level : Z)
    (notes : list (Z * string)) :
  forall st : run_state World,
  exists r st' more,
    summarize_slides World openai watson claude args config level notes st = (r, st')
    /\ events st' = (events st ++ more)%list
    /\ (count_attempts more
        <= count_eligible config notes * Z.to_nat (max_retries config))%nat
    /\ Forall (dispatched (provider_of (ai args)) config level notes) more.
Proof.
  induction notes as [|unit rest IH]; intros st.
  - do 2 eexists. exists []. rewrite app_nil_r.
    split; [reflexivity|]. split; [reflexivity|]. split; [cbn; lia | constructor].
  - cbn [summarize_slides]. unfold bind at 1.
    destruct (summarize_slide_events args config level unit st)
      as (r1 & st1 & more1 & E1 & Hev1 & Hc1 & Hd1).
    rewrite E1.
    assert (Hcount : (count_eligible config (unit :: rest)
                      = count_eligible config [unit] + count_eligible config rest)%nat).
    { unfold count_eligible. cbn [filter].
      destruct (eligible config (snd unit)); cbn [List.length]; lia. }
    assert (Hd1' : Forall (dispatched (provider_of (ai args)) config level
                             (unit :: rest)) more1).
    { eapply dispatched_more; [|exact Hd1]. cbn [map]. intros note [H|[]]. now left. }
    destruct r1 as [out|e].
    + unfold bind at 1.
      destruct (IH st1) as (r2 & st2 & more2 & E2 & Hev2 & Hc2 & Hd2).
      rewrite E2.
      assert (Hd2' : Forall (dispatched (provider_of (ai args)) config level
                               (unit :: rest)) more2).
      { eapply dispatched_more; [|exact Hd2]. cbn [map]. intros note H. now right. }
      destruct r2 as [outs|e]; do 2 eexists; exists (more1 ++ more2)%list;
        (split; [reflexivity|]);
        (split; [rewrite Hev2, Hev1, <- app_assoc; reflexivity|]);
        (split; [rewrite count_attempts_app; lia | now apply Forall_app]).
    + do 2 eexists. exists more1. split; [reflexivity|]. split; [exact Hev1|].
      split; [lia | exact Hd1'].
Qed.

Lemma unit_segment_attempts (p : option provider) (config : Config) (level : Z)
    (unit : Z * string) (segment : list event) :
  unit_segment p config level unit segment ->
  (count_attempts segment <= Z.to_nat (max_retries config))%nat.
Proof.
  unfold unit_segment. destruct p as [p|]; [|intros ->; cbn; lia].
  destruct (eligible config (snd unit)); [|intros ->; cbn; lia].
  intros (k & Hk & ->). destruct k as [|k]; [cbn; lia|].
  destruct (failing_attempts_counts p (snd unit) level k 0) as (H & _); [lia|].
  rewrite H. exact Hk.
Qed.

Lemma slide_segment (args : Args) (config : Config) (level : Z)
    (unit : Z * string) (st : run_state World) :
  exists r st' segment,
    summarize_slide World openai watson claude args config level unit st = (r, st')
    /\ events st' = (events st ++ segment)%list
    /\ unit_segment (provider_of (ai args)) config level unit segment.
Proof.
  destruct unit as [n note]. unfold unit_segment. cbn [snd].
  destruct (eligible config note) eqn:El.
  - destruct (eligible_true _ _ El) as [Hs Hl].
    rewrite summarize_slide_dispatches by assumption.
    destruct (summarize_note_shape World openai watson claude note n (ai args)
                config level st) as (r & st' & k & E & Hk & Hev).
    rewrite E.
    destruct r as [summary|e]; do 2 eexists; eexists;
      (split; [reflexivity|]); (split; [exact Hev|]);
      (destruct (provider_of (ai args)); [now exists k | reflexivity]).
  - rewrite summarize_slide_passes by now apply eligible_false.
    do 2 eexists. exists []. rewrite app_nil_r.
    split; [reflexivity|]. split; [reflexivity|].
    now destruct (provider_of (ai args)).
Qed.

Lemma slides_segments (args : Args) (config : Config) (level : Z)
    (notes : list (Z * string)) :
  forall st : run_state World,
  exists r st' segments reached left,
    summarize_slides World openai watson claude args config level notes st = (r, st')
    /\ events st' = (events st ++ List.concat segments)%list
    /\ notes = (reached ++ left)%list
    /\ Forall2 (unit_segment (provider_of (ai args)) config level) reached segments
    /\ (forall outs, r = Return outs -> left = []).
Proof.
  induction notes as [|unit rest IH]; intros st.
  - exists (Return []), st, [], [], []. cbn [List.concat]. rewrite app_nil_r.
    repeat split; constructor.
  - cbn [summarize_slides]. unfold bind at 1.
    destruct (slide_segment args config level unit st)
      as (r1 & st1 & seg & E1 & Hev1 & Hseg).
    rewrite E1. destruct r1 as [out|e].
    + unfold bind at 1.
      destruct (IH st1) as (r2 & st2 & segs & reached & left & E2 & Hev2 & Hn & Hall & Hl).
      rewrite E2.
      destruct r2 as [outs|e];
        do 2 eexists; exists (seg :: segs), (unit :: reached), left;
        (split; [reflexivity|]);
        (split; [cbn [List.concat]; rewrite Hev2, Hev1, <- app_assoc; reflexivity|]);
        (split; [cbn [app]; now rewrite Hn|]);
        (split; [now constructor|]).
      * intros outs0 _. now apply (Hl outs).
      * discriminate.
    + do 2 eexists. exists [seg], [unit], rest.
      split; [reflexivity|]. split; [cbn [List.concat]; now rewrite app_nil_r|].
      split; [reflexivity|]. split; [repeat constructor; exact Hseg | discriminate].
Qed.

End BatchEvents.

(** X15: when the loop of [main] ends normally, every triple carries the
    index of its unit and, unless [--summary-only] is given without
    [--extract-only], the text of the note as it was extracted, whatever
    became of the summary. *)
Theorem notes_are_retained (World : Type)
    (openai watson claude : string -> Config -> Z -> World -> outcome string * World)
    (args : Args) (config : Config) (notes : list (Z * string))
    (st st' : run_state World) (outs : list (Z * option string * string)) :
  main_summaries World openai watson claude args config notes st
  = (Return outs, st') ->
  map slide_index outs = map fst notes
  /\ map note_of outs
     = map (fun unit =>
              if summary_only args && negb (extract_only args) then ""
              else snd unit) notes.
Proof.
  unfold main_summaries. destruct (extract_only args); cbn [negb].
  - intros [= <- _]. rewrite andb_false_r, !map_map.
    split; apply map_ext; now intros [n note].
  - intros H. apply summarize_slides_notes in H. rewrite andb_true_r. exact H.
Qed.

Lemma notes_are_retained_witness :
  map slide_index
    [(1, Some "- done", "Welcome and agenda of the talk."); (2, Some "Hi.", "Hi.")]
  = map fst [(1, "Welcome and agenda of the talk."); (2, "Hi.")]
  /\ map note_of
       [(1, Some "- done", "Welcome and agenda of the talk."); (2, Some "Hi.", "Hi.")]
     = map (fun unit : Z * string =>
              if summary_only (sample_args "openai" false)
                 && negb (extract_only (sample_args "openai" false))
              then "" else snd unit)
         [(1, "Welcome and agenda of the talk."); (2, "Hi.")].
Proof.
  apply (notes_are_retained nat adapter_up adapter_up adapter_up
           (sample_args "openai" false) (sample_config 3 10)
           [(1, "Welcome and agenda of the talk."); (2, "Hi.")]
           start {| world := 1%nat;
                    events := [Attempt OpenAI "Welcome and agenda of the talk." 5] |}).
  reflexivity.
Defined.

(** X16: a batch in which every note is a sentinel or shorter than
    [min_characters] is passed through as a whole: no adapter is called,
    nothing is slept, and every summary is the note itself. *)
Theorem batch_without_eligible_notes (World : Type)
    (openai watson claude : string -> Config -> Z -> World -> outcome string * World)
    (args : Args) (config : Config) (notes : list (Z * string))
    (st : run_state World) :
  extract_only args = false ->
  Forall (fun unit => eligible config (snd unit) = false) notes ->
  main_summaries World openai watson claude args config notes st
  = (Return (map (passed_through args) notes), st).
Proof.
  intros Hex H. unfold main_summaries. rewrite Hex. cbn [negb].
  now apply summarize_slides_ineligible.
Qed.

Lemma batch_without_eligible_notes_witness :
  main_summaries nat adapter_down adapter_down adapter_down
    (sample_args "claude" false) (sample_config 3 10)
    [(1, "No notes slide."); (2, "Hi."); (3, "No notes found.")] start
  = (Return (map (passed_through (sample_args "claude" false))
               [(1, "No notes slide."); (2, "Hi."); (3, "No notes found.")]),
     start).
Proof.
  apply batch_without_eligible_notes; [reflexivity|].
  repeat constructor.
Defined.

(** X17: whatever the adapters do, the loop of [main] calls an adapter only
    for the chosen provider, at the level of the run and with a note of the
    batch that is eligible, and at most [max_retries] times for each such
    note: the events of the run are, unit after unit and in the order of
    the units, the calls made for the unit with its note, with the sleeps
    between them, and nothing for a unit that is not eligible.  The units
    are all reached when the loop ends normally; with [--extract-only] no
    adapter is called. *)
Theorem provider_calls_are_for_eligible_notes (World : Type)
    (openai watson claude : string -> Config -> Z -> World -> outcome string * World)
    (args : Args) (config : Config) (notes : list (Z * string))
    (st : run_state World) :
  exists r st' more,
    main_summaries World openai watson claude args config notes st = (r, st')
    /\ events st' = (events st ++ more)%list
    /\ (count_attempts more
        <= count_eligible config notes * Z.to_nat (max_retries config))%nat
    /\ Forall (dispatched (provider_of (ai args)) config (level_of args config) notes)
         more
    /\ (if extract_only args then more = [] else True)
    /\ exists segments reached left,
         more = List.concat segments
         /\ notes = (reached ++ left)%list
         /\ Forall2 (unit_segment (provider_of (ai args)) config
                       (level_of args config)) reached segments
         /\ Forall (fun segment =>
                      (count_attempts segment
                       <= Z.to_nat (max_retries config))%nat) segments
         /\ (forall outs, r = Return outs -> extract_only args = false ->
                          left = []).
Proof.
  unfold main_summaries. fold (level_of args config).
  destruct (extract_only args); cbn [negb].
  - do 2 eexists. exists []. rewrite app_nil_r.
    split; [reflexivity|]. split; [reflexivity|].
    split; [cbn; lia|]. split; [constructor|]. split; [reflexivity|].
    exists [], [], notes. repeat split; try constructor. discriminate.
  - destruct (summarize_slides_events World openai watson claude args config
                (level_of args config) notes st)
      as (r & st' & more & E & Hev & Hc & Hd).
    destruct (slides_segments World openai watson claude args config
                (level_of args config) notes st)
      as (r2 & st2 & segments & reached & left & E2 & Hev2 & Hn & Hall & Hl).
    rewrite E in E2. injection E2 as <- <-.
    assert (Hmore : more = List.concat segments).
    { rewrite Hev in Hev2. now apply app_inv_head in Hev2. }
    exists r, st', more. repeat split; try assumption.
    exists segments, reached, left. repeat split; try assumption.
    + clear - Hall.
      induction Hall as [|unit seg us segs Hseg Hrest IH]; [constructor|].
      constructor; [eapply unit_segment_attempts; exact Hseg | exact IH].
    + intros outs Hr _. now apply (Hl outs).
Qed.

Section TextFiles.

Lemma notes_only_txt (notes : list (Z * string)) :
  Forall (fun unit => Py.truthy (snd unit) = true) notes ->
  write_slides_to_txt
    (map (fun '(slide_number, note) => (slide_number, Some "", note)) notes) false
  = notes_sections notes.
Proof.
  induction 1 as [|[n note] rest Hn Hrest IH]; [reflexivity|].
  cbn [map write_slides_to_txt notes_sections Py.truthy negb andb].
  cbn [snd] in Hn. rewrite Hn, IH. reflexivity.
Qed.

Lemma headings_only_txt (notes : list (Z * string)) :
  write_slides_to_txt
    (map (fun '(slide_number, note) => (slide_number, Some "", note)) notes) true
  = slide_headings notes.
Proof.
  induction notes as [|[n note] rest IH]; [reflexivity|].
  cbn [map write_slides_to_txt slide_headings Py.truthy negb andb].
  rewrite IH. reflexivity.
Qed.

End TextFiles.

(** X18: with [--extract-only] and the text format, [main] calls no
    provider and writes, after the title, every slide with its notes and no
    summary; every slide has its notes section, as no extracted note is
    empty.  With [--summary-only] as well, only the slide headings are
    written. *)
Theorem extract_only_text_file (World : Type)
    (anthropic_messages_create openai_chat_completions_create :
       Config -> string -> World -> reply * World)
    (watson_analyze : Config -> string -> Z -> World -> watson_reply * World)
    (args : Args) (config : Config) (slides : list slide)
    (st : run_state World) :
  extract_only args = true ->
  main_to_txt World anthropic_messages_create openai_chat_completions_create
    watson_analyze args config slides st
  = (Return ("Presentation Notes" ++ String LF (String LF "")
             ++ (if summary_only args
                 then slide_headings (extract_notes_from_presentation slides)
                 else notes_sections (extract_notes_from_presentation slides))),
     st).
Proof.
  intros Hex. unfold main_to_txt, main, main_summaries, bind, ret.
  rewrite Hex. cbn [negb]. unfold write_summary_to_txt.
  destruct (summary_only args).
  - now rewrite headings_only_txt.
  - rewrite notes_only_txt; [reflexivity|].
    apply extract_from_truthy.
Qed.

Lemma extract_only_text_file_witness :
  main_to_txt nat vendor_down vendor_down watson_down
    {| presentation := "deck.pptx"; output := "notes.txt"; ai := "watson";
       config_path := "config.json"; format := "txt"; extract_only := true;
       summary_only := false; verbose := false; summarization_level := None |}
    (sample_config 3 10) [NotesSlide (Some "Hello."); NoNotesSlide] start
  = (Return ("Presentation Notes" ++ String LF (String LF "")
             ++ notes_sections
                  (extract_notes_from_presentation
                     [NotesSlide (Some "Hello."); NoNotesSlide])),
     start).
Proof.
  apply (extract_only_text_file nat vendor_down vendor_down watson_down
           {| presentation := "deck.pptx"; output := "notes.txt"; ai := "watson";
              config_path := "config.json"; format := "txt"; extract_only := true;
              summary_only := false; verbose := false;
              summarization_level := None |}).
  reflexivity.
Defined.

(** ** config.py *)

Section ConfigKeys.

Variable Value : Type.

Lemma key_in_In (k : string) (keys : list string) :
  key_in k keys = true <-> In k keys.
Proof.
  unfold key_in. rewrite existsb_exists. split.
  - intros (x & Hin & E). apply String.eqb_eq in E. now subst.
  - intros H. exists k. split; [exact H | apply String.eqb_refl].
Qed.

Lemma filtered_keys (items : list (string * Value)) (k : string) :
  In k (map fst (filter (fun item => key_in (fst item) expected_keys) items))
  <-> In k (map fst items) /\ In k expected_keys.
Proof.
  rewrite !in_map_iff. split.
  - intros (item & <- & Hin). apply filter_In in Hin. destruct Hin as [Hin Hk].
    split; [now exists item | now apply key_in_In].
  - intros ((item & <- & Hin) & Hk). exists item. split; [reflexivity|].
    apply filter_In. split; [exact Hin | now apply key_in_In].
Qed.

Lemma missing_keys_spec (items : list (string * Value)) (k : string) :
  In k (filter (fun k => negb (key_in k (map fst items))) expected_keys)
  <-> In k expected_keys /\ ~ In k (map fst items).
Proof.
  rewrite filter_In. split; intros [H1 H2]; (split; [exact H1|]).
  - intros Hin. apply key_in_In in Hin. rewrite Hin in H2. discriminate.
  - destruct (key_in k (map fst items)) eqn:E; [|reflexivity].
    exfalso. now apply H2, key_in_In.
Qed.

Lemma Config_init_filtered (items : list (string * Value)) :
  (forall k, In k expected_keys -> In k (map fst items)) ->
  Config_init Value (filter (fun item => key_in (fst item) expected_keys) items)
  = Some (filter (fun item => key_in (fst item) expected_keys) items).
Proof.
  intros Hall. unfold Config_init.
  replace (forallb _ expected_keys) with true.
  - replace (forallb _ (map fst _)) with true; [reflexivity|].
    symmetry. apply forallb_forall. intros k Hk.
    apply key_in_In. now apply filtered_keys in Hk.
  - symmetry. apply forallb_forall. intros k Hk.
    apply key_in_In, filtered_keys. auto.
Qed.

End ConfigKeys.

(** X19: for a configuration file that holds a JSON object, [load_config]
    succeeds exactly when every field of [Config] is a key of the object.
    It then makes the [Config] from the items of these keys, with their
    values as they are, and drops every other item; the [TypeError] it
    guards the making of the [Config] against cannot occur.  Otherwise it
    raises the [ValueError] for the missing keys, which are the fields that
    are no key of the object. *)
Theorem load_config_requires_every_key (Value : Type) (config_path : string)
    (items : list (string * Value)) :
  match load_config Value config_path (Holds (JSONObject items)) with
  | Loaded kwargs =>
      (forall k, In k expected_keys -> In k (map fst items))
      /\ kwargs = filter (fun item => key_in (fst item) expected_keys) items
      /\ (forall k, In k (map fst kwargs) <-> In k expected_keys)
  | LoadFailed (ValueErrorMissingKeys missing_keys) =>
      missing_keys <> []
      /\ (forall k, In k missing_keys
                    <-> In k expected_keys /\ ~ In k (map fst items))
  | LoadFailed _ => False
  end.
Proof.
  cbn [load_config].
  pose proof (missing_keys_spec Value items) as Hm.
  destruct (filter (fun k => negb (key_in k (map fst items))) expected_keys)
    as [|k0 missing] eqn:E.
  - assert (Hall : forall k, In k expected_keys -> In k (map fst items)).
    { intros k Hk. destruct (key_in k (map fst items)) eqn:Ek.
      - now apply key_in_In.
      - exfalso. apply (proj2 (Hm k)).
        split; [exact Hk|]. rewrite <- key_in_In. now rewrite Ek. }
    rewrite (Config_init_filtered Value items Hall).
    split; [exact Hall|]. split; [reflexivity|].
    intros k. rewrite filtered_keys. split; [tauto | auto].
  - split; [discriminate | exact Hm].
Qed.

(** ** summarizers.py: the texts [clean_summary] leaves as they are *)

Section FixedPoints.

Lemma join_split (sep : ascii) (s : string) :
  Py.join (String sep "") (Py.split sep s) = s.
Proof.
  induction s as [|c s IH]; [reflexivity|]. cbn [Py.split].
  pose proof (split_not_nil sep s) as Hne.
  destruct (Ascii.eqb c sep) eqn:E.
  - apply Ascii.eqb_eq in E. subst c.
    destruct (Py.split sep s) as [|h t]; [congruence|].
    change (Py.join (String sep "") ("" :: h :: t))
      with (String sep (Py.join (String sep "") (h :: t))).
    now rewrite IH.
  - destruct (Py.split sep s) as [|h t]; [congruence|].
    destruct t as [|h2 t].
    + cbn [Py.join] in IH |- *. now rewrite IH.
    + change (Py.join (String sep "") (String c h :: h2 :: t))
        with (String c (Py.join (String sep "") (h :: h2 :: t))).
      now rewrite IH.
Qed.

Lemma collapse_length (text : string) :
  (String.length (collapse text) <= String.length text)%nat.
Proof.
  induction text as [|r IH|c r Hc IH] using collapse_ind.
  - reflexivity.
  - rewrite collapse_match. simpl. lia.
  - rewrite collapse_step by exact Hc. simpl. lia.
Qed.

Lemma collapse_fixed (text : string) :
  collapse text = text -> contains text "- -" = false.
Proof.
  induction text as [|r IH|c r Hc IH] using collapse_ind; intros H.
  - reflexivity.
  - exfalso. rewrite collapse_match in H.
    pose proof (collapse_length r) as L.
    apply (f_equal String.length) in H. simpl in H. lia.
  - rewrite collapse_step in H by exact Hc. injection H as H.
    cbn [contains]. rewrite Hc. now apply IH.
Qed.

End FixedPoints.

(** X20: the texts that [clean_summary] leaves as they are are exactly the
    bullet lists it could have made: texts without ["- -"] in which every
    line is ["- "] followed by a text that starts with neither a dash nor
    white space and does not end with white space (or the empty text). *)
Theorem clean_summary_fixed_points (summary : string) :
  clean_summary summary = summary
  <-> contains summary "- -" = false
      /\ (summary = ""
          \/ Forall (fun l => exists text,
                         l = "- " ++ text /\ clean_start text = true
                         /\ Py.rstrip text = text)
               (Py.split LF summary)).
Proof.
  split.
  - intros H. split.
    + apply collapse_fixed.
      pose proof (clean_summary_twice summary) as H2. now rewrite !H in H2.
    + destruct summary as [|c s]; [now left | right].
      pose proof (lines_of_clean_summary (String c s)) as Hl.
      rewrite H in Hl. unfold lines_of in Hl. cbn [Py.truthy] in Hl. rewrite Hl.
      eapply Forall_impl; [|apply bullets_form].
      intros l (text & -> & Hs & Hr & _). now exists text.
  - intros [Hc [->|Hall]]; [reflexivity|].
    assert (Hform : Forall (fun l => exists text, l = "- " ++ text /\ bullet_text text)
                      (Py.split LF summary)).
    { pose proof (split_pieces LF summary) as Hp.
      rewrite Forall_forall in Hall, Hp |- *. intros l Hin.
      destruct (Hall l Hin) as (text & -> & Hs & Hr). exists text.
      split; [reflexivity|]. repeat split; try assumption.
      specialize (Hp _ Hin).
      change ("- " ++ text) with (String "-" (String " " text)) in Hp.
      cbn [has_char] in Hp. now apply orb_false_iff in Hp as [_ Hp]. }
    unfold clean_summary. rewrite (cleaned_lines_fixed _ Hform), join_split.
    now apply collapse_nothing.
Qed.

(** ** extractors.py: the characters of the notes *)

(** X21: the note extracted from a slide that can be read holds only
    characters that [clean_text_for_xml] keeps, the sentinel texts
    included, whatever the other slides of the presentation are; only the
    error text of a slide that cannot be read may hold others, and those
    come from the message of the exception. *)
Theorem extracted_notes_are_xml_safe (slides : list slide) :
  Forall2 (fun s unit =>
             match s with
             | BrokenSlide e =>
                 snd unit = "Error processing slide: " ++ e
                 /\ all_chars xml_char (snd unit) = all_chars xml_char e
             | _ => all_chars xml_char (snd unit) = true
             end)
    slides (extract_notes_from_presentation slides).
Proof.
  unfold extract_notes_from_presentation. generalize 0.
  induction slides as [|s rest IH]; intros i; [constructor|].
  cbn [extract_from]. constructor; [|apply IH].
  destruct s as [|[text|]|e]; try reflexivity.
  - cbn [extract_slide snd].
    destruct (Py.truthy (clean_text_for_xml text)); [|reflexivity].
    apply clean_text_xml_only.
  - split; reflexivity.
Qed.
